(** * Feather Wiki development build script ([scripts/develop.js])

    A shallow embedding of the template substitution, HTML assembly,
    watch/rebuild and dev-server logic of [scripts/develop.js], followed by
    the properties established about it.

    Modelling conventions.
    - JavaScript text is a [string]: a sequence of code units, each below 256.
      Every marker the script looks for is made of such characters.
    - The values produced by [JSON.parse] are the inductive type
      [Json.value]; [JUndefined] is added for the result of reading a
      property that is not there, and [JHost] for the functions and objects
      a read can reach through the built-in prototypes.  A property read
      first sees what a value carries itself: the members of an object, the
      elements and [length] of an array, the characters and [length] of a
      string.  What a value inherits ([toString], [constructor], ...) is
      given by the [Runtime], a parameter of the model.
    - A JSON number is kept as the text its conversion to a string gives.
    - Code that can raise returns a [completion]: [Normal] or [Throw].
    - The file system, the bundler and the HTTP library are the environment:
      their answers are carried by the events that drive the [World]. *)

From Stdlib Require Import String Ascii List ZArith Lia Bool Arith.
From Stdlib Require Import Numbers.DecimalString.
Import ListNotations.
Open Scope list_scope.
Open Scope string_scope.

Set Warnings "-register-all".

Set Implicit Arguments.

(* ===================================================================== *)
(** * Completions: normal results and thrown exceptions                    *)
(* ===================================================================== *)

Inductive exn : Type :=
| TypeError (msg : string)
| SyntaxError (msg : string)
| SystemError (code : string)
| BuildFailure (msg : string).

Inductive completion (A : Type) : Type :=
| Normal (a : A)
| Throw (e : exn).

Arguments Normal {A} a.
Arguments Throw {A} e.

Definition bind {A B : Type} (c : completion A) (k : A -> completion B)
  : completion B :=
  match c with
  | Normal a => k a
  | Throw e => Throw e
  end.

Notation "x <- c ;; k" := (bind c (fun x => k))
  (at level 61, c at next level, right associativity).

(* ===================================================================== *)
(** * String primitives of the language, as the script uses them           *)
(* ===================================================================== *)

Module JsString.

(** [s.startsWith(p)], returning what follows the prefix. *)
Fixpoint stripPrefix (p s : string) : option string :=
  match p, s with
  | EmptyString, _ => Some s
  | String a p', String b s' =>
      if Ascii.eqb a b then stripPrefix p' s' else None
  | String _ _, EmptyString => None
  end.

Definition startsWith (p s : string) : bool :=
  match stripPrefix p s with Some _ => true | None => false end.

(** The text before and after the first occurrence of [pat] in [s]
    ([s.indexOf(pat)] and the two substrings around the match). *)
Fixpoint splitAtFirst (pat s : string) : option (string * string) :=
  match stripPrefix pat s with
  | Some rest => Some (EmptyString, rest)
  | None =>
      match s with
      | EmptyString => None
      | String c t =>
          match splitAtFirst pat t with
          | Some (b, a) => Some (String c b, a)
          | None => None
          end
      end
  end.

Definition includes (pat s : string) : bool :=
  match splitAtFirst pat s with Some _ => true | None => false end.

(** GetSubstitution of ECMA-262 for a match without capture groups: in
    the replacement text [$$] is a dollar sign, [$&] the matched text,
    [$`] the text before the match and [$'] the text after it.  With no
    capture groups [$1], [$<name>] and a lone [$] stand for themselves. *)
Fixpoint GetSubstitution (matched before after template : string) : string :=
  match template with
  | EmptyString => EmptyString
  | String c t =>
      if Ascii.eqb c "$" then
        match t with
        | EmptyString => String c EmptyString
        | String d rest =>
            if Ascii.eqb d "$" then
              String "$" (GetSubstitution matched before after rest)
            else if Ascii.eqb d "&" then
              matched ++ GetSubstitution matched before after rest
            else if Ascii.eqb d "`" then
              before ++ GetSubstitution matched before after rest
            else if Ascii.eqb d "'" then
              after ++ GetSubstitution matched before after rest
            else String c (GetSubstitution matched before after t)
        end
      else String c (GetSubstitution matched before after t)
  end.

(** [s.replace(searchString, replaceValue)] with a string pattern and a
    string replacement: the first occurrence only, found literally; the
    replacement goes through [GetSubstitution]. *)
Definition replace (searchString replaceValue s : string) : string :=
  match splitAtFirst searchString s with
  | Some (before, after) =>
      before ++ GetSubstitution searchString before after replaceValue ++ after
  | None => s
  end.

(** [s.split(sep)] for a non-empty separator.  Every cut consumes at
    least one character, so [length s] rounds are enough. *)
Fixpoint splitFuel (fuel : nat) (sep s : string) : list string :=
  match fuel with
  | O => [s]
  | S fuel' =>
      match splitAtFirst sep s with
      | Some (b, a) => b :: splitFuel fuel' sep a
      | None => [s]
      end
  end.

Definition split (sep s : string) : list string :=
  splitFuel (String.length s) sep s.

(** White space as [trim] sees it, among the code units below 256. *)
Definition isWhiteSpace (c : ascii) : bool :=
  let n := nat_of_ascii c in
  (((9 <=? n) && (n <=? 13)) || (n =? 32) || (n =? 160))%nat.

Fixpoint trimStart (s : string) : string :=
  match s with
  | EmptyString => EmptyString
  | String c t => if isWhiteSpace c then trimStart t else s
  end.

Fixpoint trimEnd (s : string) : string :=
  match s with
  | EmptyString => EmptyString
  | String c t =>
      match trimEnd t with
      | EmptyString => if isWhiteSpace c then EmptyString else String c EmptyString
      | t' => String c t'
      end
  end.

Definition trim (s : string) : string := trimEnd (trimStart s).

(** [/\.ext$/.test(s)]: [s] ends with [suffix]. *)
Fixpoint endsWith (suffix s : string) : bool :=
  String.eqb suffix s
  || match s with
     | EmptyString => false
     | String _ t => endsWith suffix t
     end.

(** A line terminator, which [.] in a regular expression does not match. *)
Definition isLineTerminator (c : ascii) : bool :=
  let n := nat_of_ascii c in ((n =? 10) || (n =? 13))%nat.

(** Replacement of every match of a regular expression with the [g] flag.
    [matchAt s] is the text the expression matches at the start of [s], if
    any (never empty for the expressions of this script).  Matches are
    taken left to right and do not overlap; [skip] counts the characters
    of the current match still to be passed over, [before] is the text
    already scanned. *)
Fixpoint replaceAllFrom (matchAt : string -> option string) (replaceValue : string)
         (before : string) (skip : nat) (s : string) : string :=
  match s with
  | EmptyString => EmptyString
  | String c t =>
      match skip with
      | S k => replaceAllFrom matchAt replaceValue (before ++ String c EmptyString) k t
      | O =>
          match matchAt s with
          | Some m =>
              let after :=
                match stripPrefix m s with Some a => a | None => EmptyString end in
              GetSubstitution m before after replaceValue
              ++ replaceAllFrom matchAt replaceValue
                   (before ++ String c EmptyString) (String.length m - 1) t
          | None =>
              String c (replaceAllFrom matchAt replaceValue
                          (before ++ String c EmptyString) 0 t)
          end
      end
  end.

Definition replaceAll (matchAt : string -> option string) (replaceValue s : string)
  : string :=
  replaceAllFrom matchAt replaceValue EmptyString 0 s.

(** [s.match(re)] with the [g] flag: the matched texts, left to right.
    [matchAt s] gives the matched text and how far the scan moves on. *)
Fixpoint matchAllFrom (matchAt : string -> option (string * nat))
         (skip : nat) (s : string) : list string :=
  match s with
  | EmptyString => []
  | String _ t =>
      match skip with
      | S k => matchAllFrom matchAt k t
      | O =>
          match matchAt s with
          | Some (m, advance) => m :: matchAllFrom matchAt (advance - 1) t
          | None => matchAllFrom matchAt 0 t
          end
      end
  end.

End JsString.

(* ===================================================================== *)
(** * JSON values and property reads                                       *)
(* ===================================================================== *)

Module Json.

(** The values the metadata resolution meets.  A number is kept as the
    text [Number::toString] gives for it, which is all the script does
    with a number.  [JHost] is a value that is not JSON data: a function
    or another object of the runtime, reached through a prototype, named
    by its handle. *)
Inductive value : Type :=
| JUndefined
| JNull
| JBool (b : bool)
| JNumber (text : string)
| JString (s : string)
| JArray (elements : list value)
| JObject (members : list (string * value))
| JHost (handle : nat).

Definition isNullish (v : value) : bool :=
  match v with
  | JUndefined | JNull => true
  | _ => false
  end.

(** [v ?? d] *)
Definition coalesce (v d : value) : value :=
  if isNullish v then d else v.

(** What the runtime adds to the data: the members that values inherit
    from the built-in prototypes ([toString], [constructor], [trim], ...),
    the members of the objects reached that way, and what becomes of
    such an object when it is used as a replacement.  [member] lists
    the property names under which the runtime has anything at all;
    under any other name a read that finds no member of the value's own
    finds nothing. *)
Record Runtime : Type := {
  member : string -> bool;
  (* the read of a property the value does not carry itself; it may run
     an accessor, which may raise *)
  inherited : value -> string -> completion value;
  (* IsCallable *)
  callable : nat -> bool;
  (* a function used as the replacement in [String.prototype.replace]:
     called with the match, its position and the whole text; the result
     converted to a string *)
  callReplacer : nat -> string -> nat -> string -> completion string;
  (* ToString of an object of the runtime *)
  hostToString : nat -> completion string;
  inherited_nothing :
    forall v k, member k = false -> inherited v k = Normal JUndefined
}.

Definition digitValue (c : ascii) : option nat :=
  let n := nat_of_ascii c in
  if ((48 <=? n) && (n <=? 57))%nat then Some (n - 48) else None.

Fixpoint parseDigits (acc : nat) (s : string) : option nat :=
  match s with
  | EmptyString => Some acc
  | String c t =>
      match digitValue c with
      | Some d => parseDigits (10 * acc + d) t
      | None => None
      end
  end.

(** A property name that is an index: decimal digits, no leading zero. *)
Definition arrayIndex (k : string) : option nat :=
  match k with
  | EmptyString => None
  | String c t =>
      if Ascii.eqb c "0" then
        match t with EmptyString => Some 0 | _ => None end
      else parseDigits 0 k
  end.

Fixpoint lookup (k : string) (members : list (string * value)) : option value :=
  match members with
  | [] => None
  | (k', v) :: rest => if String.eqb k k' then Some v else lookup k rest
  end.

(** The text of a length. *)
Definition decimal (n : nat) : string :=
  NilEmpty.string_of_uint (Nat.to_uint n).

(** [v[k]].  Reading a property of [undefined] or [null] raises a
    TypeError.  A string carries its [length] and its characters, an
    array its [length] and its elements, an object the members parsed
    from the file; every other read goes to the runtime. *)
Definition get (R : Runtime) (v : value) (k : string) : completion value :=
  match v with
  | JUndefined | JNull =>
      Throw (TypeError "Cannot read properties of undefined or null")
  | JBool _ | JNumber _ | JHost _ => inherited R v k
  | JString s =>
      if String.eqb k "length" then Normal (JNumber (decimal (String.length s)))
      else
        match arrayIndex k with
        | Some i =>
            match String.get i s with
            | Some c => Normal (JString (String c EmptyString))
            | None => inherited R v k
            end
        | None => inherited R v k
        end
  | JArray xs =>
      if String.eqb k "length" then Normal (JNumber (decimal (List.length xs)))
      else
        match arrayIndex k with
        | Some i =>
            match nth_error xs i with
            | Some x => Normal x
            | None => inherited R v k
            end
        | None => inherited R v k
        end
  | JObject members =>
      match lookup k members with
      | Some x => Normal x
      | None => inherited R v k
      end
  end.

(** ToString.  An array is joined with commas, [null] and [undefined]
    elements giving nothing.  An object parsed from JSON goes through the
    inherited [toString] unless it has a member of that name of its own,
    which is data and cannot be called: the conversion then raises. *)
Fixpoint ToString (R : Runtime) (v : value) : completion string :=
  match v with
  | JUndefined => Normal "undefined"
  | JNull => Normal "null"
  | JBool true => Normal "true"
  | JBool false => Normal "false"
  | JNumber text => Normal text
  | JString s => Normal s
  | JArray xs =>
      (fix join (l : list value) : completion string :=
         match l with
         | [] => Normal EmptyString
         | x :: rest =>
             match (if isNullish x then Normal EmptyString else ToString R x) with
             | Throw e => Throw e
             | Normal head =>
                 match rest with
                 | [] => Normal head
                 | _ =>
                     match join rest with
                     | Throw e => Throw e
                     | Normal tail => Normal (head ++ "," ++ tail)
                     end
                 end
             end
         end) xs
  | JObject members =>
      match lookup "toString" members with
      | Some _ => Throw (TypeError "Cannot convert object to primitive value")
      | None => Normal "[object Object]"
      end
  | JHost h => hostToString R h
  end.

Definition isFunction (R : Runtime) (v : value) : bool :=
  match v with
  | JHost h => callable R h
  | _ => false
  end.

(** [s.replace(searchString, replaceValue)] with a string to search for.
    A replacement that is a function is called where the string is
    found; any other replacement is converted to a string first, found
    or not, and its replacement patterns are expanded. *)
Definition replaceWith (R : Runtime) (searchString : string) (replaceValue : value)
           (s : string) : completion string :=
  match replaceValue with
  | JHost h =>
      if callable R h then
        match JsString.splitAtFirst searchString s with
        | Some (before, after) =>
            r <- callReplacer R h searchString (String.length before) s ;;
            Normal (before ++ r ++ after)
        | None => Normal s
        end
      else
        t <- hostToString R h ;;
        Normal (JsString.replace searchString t s)
  | _ =>
      t <- ToString R replaceValue ;;
      Normal (JsString.replace searchString t s)
  end.

(** A runtime given by the names it knows and by what is read under
    them. *)
Definition makeRuntime (names : list string)
           (read : value -> string -> completion value)
           (isCallable : nat -> bool)
           (call : nat -> string -> nat -> string -> completion string)
           (toString : nat -> completion string) : Runtime :=
  {| member := fun k => existsb (String.eqb k) names;
     inherited := fun v k =>
       if existsb (String.eqb k) names then read v k else Normal JUndefined;
     callable := isCallable;
     callReplacer := call;
     hostToString := toString;
     inherited_nothing := fun v k H =>
       @eq_ind_r bool false
         (fun b : bool =>
            (if b then read v k else Normal JUndefined) = Normal JUndefined)
         eq_refl (existsb (String.eqb k) names) H |}.

End Json.

Export Json.

(** [xs.reduce(f, init)] for a callback that may raise. *)
Fixpoint reduce {A B : Type} (f : A -> B -> completion A) (xs : list B) (init : A)
  : completion A :=
  match xs with
  | [] => Normal init
  | x :: rest => a <- f init x ;; reduce f rest a
  end.

(* ===================================================================== *)
(** * The script                                                           *)
(* ===================================================================== *)

(** A locale file: a flat JSON object of translated strings, its keys in
    the order in which [Object.keys] lists them. *)
Definition localeMapping : Type := list (string * string).

(** The package descriptor: the JSON object parsed from [package.json]. *)
Definition descriptor : Type := list (string * value).

Module Locale.

Fixpoint lookup (k : string) (o : localeMapping) : option string :=
  match o with
  | [] => None
  | (k', v) :: rest => if String.eqb k k' then Some v else lookup k rest
  end.

(** [o[k] = v]: an existing key keeps its place, a new one goes last.
    This is the order of [Object.keys] for keys that are not integer
    indices; integer indices, which it lists first, are not told apart
    here. *)
Fixpoint set (k v : string) (o : localeMapping) : localeMapping :=
  match o with
  | [] => [(k, v)]
  | (k', v') :: rest =>
      if String.eqb k k' then (k, v) :: rest else (k', v') :: set k v rest
  end.

Definition assign (target source : localeMapping) : localeMapping :=
  fold_left (fun o kv => set (fst kv) (snd kv) o) source target.

(** [{ ...a, ...b }] *)
Definition spread (a b : localeMapping) : localeMapping :=
  assign (assign [] a) b.

(** [Object.keys(o)] *)
Definition keys (o : localeMapping) : list string := map fst o.

End Locale.

(** The constants computed when the module is loaded (lines 18-33), and
    the runtime the module is loaded in. *)
Record Globals : Type := {
  english : localeMapping;
  activeLocale : localeMapping;
  localeName : string;
  packageJson : descriptor;
  runtime : Runtime
}.

(** [localesDir name] is the parsed content of [locales/<name>.json] when
    that file exists. *)
Definition loadLocale (localesDir : string -> option localeMapping)
           (localeName : string) : option localeMapping :=
  localesDir localeName.

Definition loadGlobals (localesDir : string -> option localeMapping)
           (FEATHERWIKI_LOCALE : option string) (packageJsonFile : descriptor)
           (R : Runtime) : Globals :=
  let defaultLocale :=
    match FEATHERWIKI_LOCALE with Some l => l | None => "en-US" end in
  let english :=
    match loadLocale localesDir "en-US" with Some m => m | None => [] end in
  let activeLocale :=
    match loadLocale localesDir defaultLocale with Some m => m | None => english end in
  {| english := english;
     activeLocale := activeLocale;
     localeName := defaultLocale;
     packageJson := packageJsonFile;
     runtime := R |}.

(** ** Regular expressions of the script *)

(** [/\{\{localeName\}\}/] *)
Definition localeNameRegex (s : string) : option string :=
  if JsString.startsWith "{{localeName}}" s then Some "{{localeName}}" else None.

(** The characters that are syntax in a regular expression.  A locale key is
    pasted into the expression as it is; the model below reads the key as
    literal text, which is what the expression does for a key free of these
    characters. *)
Definition isRegexSyntax (c : ascii) : bool :=
  existsb (Ascii.eqb c)
    (list_ascii_of_string "\^$.*+?()[]{}|").

Fixpoint regexLiteral (key : string) : bool :=
  match key with
  | EmptyString => true
  | String c t => negb (isRegexSyntax c) && regexLiteral t
  end.

(** [new RegExp(`\\{\\{translate: ?${key}\\}\\}`)]: the optional space is
    tried first, then left out. *)
Definition translateRegex (key : string) (s : string) : option string :=
  match JsString.stripPrefix "{{translate:" s with
  | None => None
  | Some r =>
      if JsString.startsWith (" " ++ key ++ "}}") r
      then Some ("{{translate: " ++ key ++ "}}")
      else if JsString.startsWith (key ++ "}}") r
      then Some ("{{translate:" ++ key ++ "}}")
      else None
  end.

(** [.+?(?=}})]: the shortest non-empty run of characters other than line
    terminators that is followed by [}}]. *)
Fixpoint lazyDotPlus (s : string) : option string :=
  match s with
  | EmptyString => None
  | String c t =>
      if JsString.isLineTerminator c then None
      else if JsString.startsWith "}}" t then Some (String c EmptyString)
      else match lazyDotPlus t with
           | Some m => Some (String c m)
           | None => None
           end
  end.

(** [/(?<={{)package\.json:.+?(?=}})/] tried where the two braces of the
    look-behind start.  The match itself starts after the braces; the next
    match cannot start before this one ends, so the scan moves on by the
    length of the match. *)
Definition packageJsonRegex (s : string) : option (string * nat) :=
  match JsString.stripPrefix "{{package.json:" s with
  | None => None
  | Some r =>
      match lazyDotPlus r with
      | Some d =>
          let m := "package.json:" ++ d in Some (m, String.length m)
      | None => None
      end
  end.

(** ** Template substitution *)

Section Substitution.

Variable G : Globals.

(** [function localize (content)] *)
Definition localize (content : string) : string :=
  let translations := Locale.spread (english G) (activeLocale G) in
  let currentLocaleName := localeName G in
  let result := JsString.replaceAll localeNameRegex currentLocaleName content in
  fold_left
    (fun result key =>
       let regex := translateRegex key in
       JsString.replaceAll regex
         (match Locale.lookup key translations with
          | Some v => v
          | None => "undefined"
          end)
         result)
    (Locale.keys translations) result.

(** The callback of [value.split('.').reduce(..., null)]. *)
Definition reducer (result : value) (current : string) : completion value :=
  match result with
  | JNull =>
      v <- get (runtime G) (JObject (packageJson G)) current ;;
      Normal (coalesce v (JString ""))
  | _ =>
      v <- get (runtime G) result current ;;
      Normal (coalesce v (JString ""))
  end.

(** The dotted path of a match, and its value. *)
Definition pathOf (m : string) : list string :=
  let value := JsString.trim (JsString.replace "package.json:" "" m) in
  JsString.split "." value.

Definition resolve (m : string) : completion value :=
  reduce reducer (pathOf m) JNull.

Record substitution : Type := { matchText : string; replaceValue : value }.

(** [matches.map(match => ({ match: `{{${match}}}`, replace }))] *)
Fixpoint mapMatches (matches : list string) : completion (list substitution) :=
  match matches with
  | [] => Normal []
  | m :: rest =>
      replace <- resolve m ;;
      tail <- mapMatches rest ;;
      Normal ({| matchText := "{{" ++ m ++ "}}"; replaceValue := replace |} :: tail)
  end.

(** [.forEach(m => { result = result.replace(m.match, m.replace) })] *)
Fixpoint applySubstitutions (ms : list substitution) (text : string)
  : completion string :=
  match ms with
  | [] => Normal text
  | m :: rest =>
      result <- replaceWith (runtime G) (matchText m) (replaceValue m) text ;;
      applySubstitutions rest result
  end.

Definition packageMatches (content : string) : list string :=
  JsString.matchAllFrom packageJsonRegex 0 content.

(** [function injectPackageVariables (content)] *)
Definition injectPackageVariables (content : string) : completion string :=
  match packageMatches content with
  | [] => Normal content
  | matches =>
      ms <- mapMatches matches ;;
      applySubstitutions ms content
  end.

End Substitution.

(** ** Build results, the output file and the dev server *)

(** One output of the bundler: its logical path and its content, decoded.
    The size that is logged is counted on the text, one byte a character. *)
Record OutputFile : Type := { path : string; contents : string }.

(** What the bundler hands to [onEnd]. *)
Record BuildResult : Type := {
  errors : list string;
  outputFiles : list OutputFile
}.

Inductive logEntry : Type :=
| LogError (e : exn)                     (* console.error(e), or the runtime reporting an uncaught exception *)
| LogBuildFailed (errs : list string)    (* console.error('watch build failed:', errors) *)
| LogSize (file : string) (bytes : nat)  (* console.info(path, kilobytes) *)
| LogText (msg : string).                (* console.log(msg) *)

(** The process and the part of the disk it writes.  [fs.writeFile] with a
    callback only starts a write: the text waits in [pendingWrites] while
    the file system opens the file, which empties it, and fills it, until
    the completion is reported. *)
Record World : Type := {
  outputDirExists : bool;
  outputFile : option string;
  pendingWrites : list string;
  console : list logEntry;
  exitStatus : option Z;
  listening : bool
}.

(** The answers of the environment while one build result is handled. *)
Record Env : Type := {
  readShell : completion string;              (* fs.promises.readFile('index.html', 'utf8') *)
  buildSyncCss : completion (list OutputFile); (* esbuild.buildSync({ entryPoints: ['index.css'], ... }).outputFiles *)
  mkdirSync : completion unit                  (* fs.mkdirSync(outputDir) *)
}.

Definition outputFilePath : string := "develop/index.html".

Definition log (entry : logEntry) (w : World) : World :=
  {| outputDirExists := outputDirExists w;
     outputFile := outputFile w;
     pendingWrites := pendingWrites w;
     console := (console w ++ [entry])%list;
     exitStatus := exitStatus w;
     listening := listening w |}.

(** [process.exit(code)] *)
Definition exit (code : Z) (w : World) : World :=
  {| outputDirExists := outputDirExists w;
     outputFile := outputFile w;
     pendingWrites := pendingWrites w;
     console := console w;
     exitStatus := Some code;
     listening := listening w |}.

(** An exception nobody catches: the script installs no handler, so the
    runtime prints it and ends the process with status 1. *)
Definition uncaught (e : exn) (w : World) : World :=
  exit 1 (log (LogError e) w).

Section Pipeline.

Variable G : Globals.

(** The body of the loop over the output files (lines 111-122). *)
Definition spliceOutput (html : string) (out : OutputFile) : string :=
  let output := contents out in
  if JsString.endsWith ".css" (path out) then
    JsString.replace "{{cssOutput}}" output html
  else if JsString.endsWith ".js" (path out) then
    let htmlParts := JsString.split "{{jsOutput}}" html in
    nth 0 htmlParts "undefined" ++ output ++ nth 1 htmlParts "undefined"
  else html.

Definition logOutput (w : World) (out : OutputFile) : World :=
  log (LogSize (path out) (String.length (contents out))) w.

(** The shell with every output spliced in, in order. *)
Definition assemble (html : string) (outs : list OutputFile) : string :=
  fold_left spliceOutput outs html.

(** [async function writeHtmlOutput (html)] *)
Definition writeHtmlOutput (env : Env) (html : string) (w : World)
  : World * completion unit :=
  let made :=
    if outputDirExists w then Normal w
    else
      match mkdirSync env with
      | Normal _ =>
          Normal {| outputDirExists := true;
                    outputFile := outputFile w;
                    pendingWrites := pendingWrites w;
                    console := console w;
                    exitStatus := exitStatus w;
                    listening := listening w |}
      | Throw e => Throw e
      end in
  match made with
  | Throw e => (w, Throw e)
  | Normal w1 =>
      ({| outputDirExists := outputDirExists w1;
          outputFile := outputFile w1;
          pendingWrites := (pendingWrites w1 ++ [html])%list;
          console := console w1;
          exitStatus := exitStatus w1;
          listening := listening w1 |}, Normal tt)
  end.

(** [async function injectPackageJsonData (html)] *)
Definition injectPackageJsonData (env : Env) (html : string) (w : World)
  : World * completion unit :=
  let matches := packageMatches html in
  let injected :=
    match matches with
    | [] => Normal html
    | _ =>
        ms <- mapMatches G matches ;;
        applySubstitutions G ms html
    end in
  match injected with
  | Throw e => (w, Throw e)
  | Normal html' => writeHtmlOutput env html' w
  end.

(** [async function handleBuildResult (result)] *)
Definition handleBuildResult (env : Env) (result : BuildResult) (w : World)
  : World * completion unit :=
  match readShell env with
  | Throw e => (w, Throw e)
  | Normal html =>
      match buildSyncCss env with
      | Throw e => (w, Throw e)
      | Normal cssOutputFiles =>
          let outs := (cssOutputFiles ++ outputFiles result)%list in
          let w1 := fold_left logOutput outs w in
          let html1 := assemble html outs in
          let html2 := localize G html1 in
          injectPackageJsonData env html2 w1
      end
  end.

(** The [onEnd] callback of [devOutputPlugin] (lines 38-52). *)
Definition onEnd (env : Env) (result : option BuildResult) (w : World) : World :=
  match result with
  | None => w
  | Some r =>
      match errors r with
      | _ :: _ => log (LogBuildFailed (errors r)) w
      | [] =>
          match handleBuildResult env r w with
          | (w', Normal _) => w'
          | (w', Throw e) => exit 1 (log (LogError e) w')
          end
      end
  end.

(** The completion of the oldest write started by [fs.writeFile]: its
    callback rethrows an error and otherwise logs the size. *)
Definition writeCompleted (err : option exn) (w : World) : World :=
  match pendingWrites w with
  | [] => w
  | html :: rest =>
      match err with
      | Some e =>
          uncaught e
            {| outputDirExists := outputDirExists w;
               outputFile := outputFile w;
               pendingWrites := rest;
               console := console w;
               exitStatus := exitStatus w;
               listening := listening w |}
      | None =>
          log (LogSize outputFilePath (String.length html))
            {| outputDirExists := outputDirExists w;
               outputFile := Some html;
               pendingWrites := rest;
               console := console w;
               exitStatus := exitStatus w;
               listening := listening w |}
      end
  end.

(** The write in progress, seen from the disk: the file was opened for
    writing and holds the first [written] characters of the text, none
    right after the opening. *)
Definition writeProgress (written : nat) (w : World) : World :=
  match pendingWrites w with
  | [] => w
  | html :: _ =>
      {| outputDirExists := outputDirExists w;
         outputFile := Some (substring 0 written html);
         pendingWrites := pendingWrites w;
         console := console w;
         exitStatus := exitStatus w;
         listening := listening w |}
  end.

Record Request : Type := { method : string; url : string }.

Record Response : Type := {
  statusCode : nat;
  headers : list (string * string);
  body : string
}.

(** The request listener of [startServer] (lines 165-169), with what it
    hands to the response: [fs.readFileSync] raises when the file is not
    there. *)
Definition requestListener (w : World) (req : Request) : completion Response :=
  match outputFile w with
  | Some bytes =>
      Normal {| statusCode := 200;
                headers := [("Content-Type", "text/html")];
                body := bytes |}
  | None => Throw (SystemError "ENOENT")
  end.

(** What the HTTP library sends of it: the answer to a HEAD request goes
    without the body. *)
Definition sent (req : Request) (res : Response) : Response :=
  if String.eqb (method req) "HEAD" then
    {| statusCode := statusCode res; headers := headers res; body := EmptyString |}
  else res.

(** [async function startServer ()] *)
Definition startServer (w : World) : World :=
  log (LogText "Node server running at http://localhost:3000")
    {| outputDirExists := outputDirExists w;
       outputFile := outputFile w;
       pendingWrites := pendingWrites w;
       console := console w;
       exitStatus := exitStatus w;
       listening := true |}.

(** [async function start ()].  [context] is the outcome of
    [esbuild.context(buildOptions)].  The result of the first build goes
    through [onEnd] before [ctx.rebuild()] settles; a build with errors
    makes [ctx.rebuild()] reject.  Whatever is raised on the way is
    caught, logged, and ends the process with status 1.  The write the
    first build starts is reported as an event of its own, after
    [start]; the port is taken to be free and [ctx.watch()] to
    succeed. *)
Definition start (context : completion unit) (env : Env) (result : BuildResult)
           (w : World) : World :=
  match context with
  | Throw e => exit 1 (log (LogError e) w)
  | Normal _ =>
      let w1 := onEnd env (Some result) w in
      match exitStatus w1 with
      | Some _ => w1
      | None =>
          match errors result with
          | _ :: _ => exit 1 (log (LogError (BuildFailure "Build failed")) w1)
          | [] => startServer w1
          end
      end
  end.

(** What happens after [start]: the events the process reacts to. *)
Inductive event : Type :=
| BuildEnd (env : Env) (result : option BuildResult)
| WriteProgress (written : nat)
| WriteDone (err : option exn)
| Incoming (req : Request).

(** One turn of the event loop, with the response sent, if any.  A
    process that has exited reacts to nothing. *)
Definition step (w : World) (ev : event) : World * option Response :=
  match exitStatus w with
  | Some _ => (w, None)
  | None =>
      match ev with
      | BuildEnd env result => (onEnd env result w, None)
      | WriteProgress written => (writeProgress written w, None)
      | WriteDone err => (writeCompleted err w, None)
      | Incoming req =>
          if listening w then
            match requestListener w req with
            | Normal res => (w, Some res)
            | Throw e => (uncaught e w, None)
            end
          else (w, None)
      end
  end.

Fixpoint run (w : World) (evs : list event) : World * list Response :=
  match evs with
  | [] => (w, [])
  | ev :: rest =>
      let '(w1, res) := step w ev in
      let '(w2, more) := run w1 rest in
      (w2, match res with Some r => r :: more | None => more end)
  end.

End Pipeline.

(** A fresh checkout: nothing built yet, nothing logged. *)
Definition freshWorld : World :=
  {| outputDirExists := false;
     outputFile := None;
     pendingWrites := [];
     console := [];
     exitStatus := None;
     listening := false |}.

(** ** Reference points for the resolution properties *)

(** The read a reduction step performs, before [?? ''] is applied: in the
    descriptor when the accumulator is [null], in the accumulator
    otherwise. *)
Definition rawLookup (G : Globals) (acc : value) (current : string)
  : completion value :=
  match acc with
  | JNull => get (runtime G) (JObject (packageJson G)) current
  | _ => get (runtime G) acc current
  end.

(** The value a match resolves to. *)
Definition valueOf (G : Globals) (m : string) : value :=
  match resolve G m with
  | Normal v => v
  | Throw _ => JUndefined
  end.

(** ** Reference points for the substitution properties *)

(** A replacement text in which no [$] starts a replacement pattern
    ([$$], [$&], [$`] or [$']). *)
Fixpoint plainReplacement (s : string) : bool :=
  match s with
  | EmptyString => true
  | String c t =>
      (if Ascii.eqb c "$" then
         match t with
         | EmptyString => true
         | String d _ =>
             negb (Ascii.eqb d "$" || Ascii.eqb d "&" || Ascii.eqb d "`" || Ascii.eqb d "'")
         end
       else true)
      && plainReplacement t
  end.

(** The replacement the specification describes: the first occurrence of
    the marker's text, found literally, gives way to the value as it is. *)
Definition replaceLiteral (marker value text : string) : string :=
  match JsString.splitAtFirst marker text with
  | Some (before, after) => before ++ value ++ after
  | None => text
  end.

(** The text a match resolves to. *)
Definition resolvedText (G : Globals) (m : string) : string :=
  match resolve G m with
  | Normal v =>
      match ToString (runtime G) v with
      | Normal t => t
      | Throw _ => EmptyString
      end
  | Throw _ => EmptyString
  end.

(** A match whose value can be inserted as it is: the resolution returns,
    the value is not a function, its conversion to a string returns and
    the text holds no replacement pattern. *)
Definition literalValue (G : Globals) (m : string) : bool :=
  match resolve G m with
  | Normal v =>
      negb (isFunction (runtime G) v)
      && match ToString (runtime G) v with
         | Normal t => plainReplacement t
         | Throw _ => false
         end
  | Throw _ => false
  end.

(** A path segment under which the runtime has no member: a read under
    this name finds what the data holds, or nothing. *)
Definition quietName (G : Globals) (k : string) : bool :=
  negb (member (runtime G) k).


(** The metadata pass the specification describes: every marker found, in
    order, replaced literally by the text it resolves to. *)
Definition injectLiteral (G : Globals) (text : string) : string :=
  fold_left
    (fun result m => replaceLiteral ("{{" ++ m ++ "}}") (resolvedText G m) result)
    (packageMatches text) text.

(** The number of places where [pat] occurs in [s]. *)
Fixpoint countOccurrences (pat s : string) : nat :=
  (if JsString.startsWith pat s then 1 else 0)
  + match s with
    | EmptyString => 0
    | String _ t => countOccurrences pat t
    end.

(** ** Sample data for the concrete runs *)

(** A runtime with a few of the members every JavaScript runtime has:
    [toString] and [constructor] on every value, [trim] on strings,
    [name] and [length] on functions, and [caller], which a function
    refuses to give.  The handles: 0 is [Object.prototype.toString], 1
    [Object], 2 [String.prototype.trim], 3 [String], 4 the [toString] of
    the other prototypes, 5 [Array], 6 [Number], 7 [Boolean], 8
    [Function]. *)
Definition sampleName (h : nat) : string :=
  match h with
  | 0 | 4 => "toString"
  | 1 => "Object"
  | 2 => "trim"
  | 3 => "String"
  | 5 => "Array"
  | 6 => "Number"
  | 7 => "Boolean"
  | _ => "Function"
  end.

Definition sampleRead (v : value) (k : string) : completion value :=
  if String.eqb k "toString" then
    match v with JObject _ => Normal (JHost 0) | _ => Normal (JHost 4) end
  else if String.eqb k "constructor" then
    match v with
    | JString _ => Normal (JHost 3)
    | JArray _ => Normal (JHost 5)
    | JNumber _ => Normal (JHost 6)
    | JBool _ => Normal (JHost 7)
    | JHost _ => Normal (JHost 8)
    | _ => Normal (JHost 1)
    end
  else if String.eqb k "trim" then
    match v with JString _ => Normal (JHost 2) | _ => Normal JUndefined end
  else if String.eqb k "name" then
    match v with
    | JHost h => Normal (JString (sampleName h))
    | _ => Normal JUndefined
    end
  else if String.eqb k "length" then
    match v with
    | JHost 0 | JHost 2 | JHost 4 => Normal (JNumber "0")
    | JHost _ => Normal (JNumber "1")
    | _ => Normal JUndefined
    end
  else if String.eqb k "caller" then
    match v with
    | JHost _ => Throw (TypeError "'caller' may not be accessed on this function")
    | _ => Normal JUndefined
    end
  else Normal JUndefined.

(** Called as a replacement function, with the match, its position and
    the whole text: [Object.prototype.toString] finds no receiver, [trim]
    and the other [toString] refuse to run without one, [Object] and
    [String] give the match back, [Array] lists its three arguments,
    [Number] finds no number in a marker, [Boolean] finds a text that is
    not empty, [Function] finds no parameter list. *)
Definition sampleCall (h : nat) (matched : string) (position : nat) (whole : string)
  : completion string :=
  match h with
  | 0 => Normal "[object Undefined]"
  | 1 | 3 => Normal matched
  | 2 => Throw (TypeError "String.prototype.trim called on null or undefined")
  | 4 => Throw (TypeError "toString requires that 'this' be of its type")
  | 5 => Normal (matched ++ "," ++ decimal position ++ "," ++ whole)
  | 6 => Normal "NaN"
  | 7 => Normal "true"
  | _ => Throw (SyntaxError "Unexpected token '{'")
  end.

Definition sampleRuntime : Runtime :=
  makeRuntime ["toString"; "constructor"; "trim"; "name"; "length"; "caller"]
    sampleRead (fun _ => true) sampleCall
    (fun h => Normal ("function " ++ sampleName h ++ "() { [native code] }")).

Definition samplePackage : descriptor :=
  [ ("name", JString "feather-wiki");
    ("version", JString "1.8.0");
    ("description", JString "A (tiny) wiki [*.html] ^1.8+ for $5?");
    ("price", JString "US$$5");
    ("repository", JObject [("type", JString "git"); ("url", JNull)]);
    ("keywords", JArray [JString "wiki"; JString "quine"]) ].

Definition sampleGlobals : Globals :=
  {| english := [("hello", "Hello"); ("bye", "Goodbye"); ("cost", "Cost")];
     activeLocale := [("hello", "Bonjour"); ("cost", "$$")];
     localeName := "fr-FR";
     packageJson := samplePackage;
     runtime := sampleRuntime |}.

Definition sampleShell : string :=
  "<head><style>{{cssOutput}}</style></head><body><script>{{jsOutput}}</script></body>".

(** An environment in which every file is there and the style sheet
    builds, and the result of a script build without errors. *)
Definition sampleEnv : Env :=
  {| readShell := Normal sampleShell;
     buildSyncCss := Normal [ {| path := "build/index.css"; contents := "body{margin:0}" |} ];
     mkdirSync := Normal tt |}.

Definition sampleResult : BuildResult :=
  {| errors := [];
     outputFiles := [ {| path := "build/index.js";
                         contents := "title('{{package.json:name}}')" |} ] |}.

Definition sampleDocument : string :=
  "<head><style>body{margin:0}</style></head><body><script>title('feather-wiki')</script></body>".

(** A process that serves: the document is on disk. *)
Definition servingWorld : World :=
  {| outputDirExists := true;
     outputFile := Some sampleDocument;
     pendingWrites := [];
     console := [];
     exitStatus := None;
     listening := true |}.

(** A process that serves the document of an earlier build. *)
Definition builtWorld : World :=
  {| outputDirExists := true;
     outputFile := Some "<html>the previous build</html>";
     pendingWrites := [];
     console := [];
     exitStatus := None;
     listening := true |}.

(** ** Reference points for the locale properties *)

(** A text in which the character [x] does not occur. *)
Fixpoint lacks (x : ascii) (s : string) : bool :=
  match s with
  | EmptyString => true
  | String c t => negb (Ascii.eqb c x) && lacks x t
  end.

(** A text without an opening brace. *)
Definition braceFree (s : string) : bool := lacks "{" s.

(** A key that the translate expression reads as literal text and that
    cannot be taken for another key preceded by the optional space. *)
Definition plainKey (key : string) : bool :=
  regexLiteral key && negb (JsString.startsWith " " key).

(** The two spellings of a translate marker. *)
Definition translateMarker (withSpace : bool) (key : string) : string :=
  "{{translate:" ++ (if withSpace then " " else "") ++ key ++ "}}".

(** A regular expression whose matches all start with two opening braces. *)
Definition onlyAtOpen (matchAt : string -> option string) : Prop :=
  forall s m, matchAt s = Some m -> JsString.startsWith "{{" s = true.

(** ** The content transform of the script bundle *)

(** The body of the [onLoad] callback of the [transform-content] plugin
    (lines 72-75): the file as read goes through [localize], then through
    [injectPackageVariables]. *)
Definition transformContent (G : Globals) (contents : string) : completion string :=
  injectPackageVariables G (localize G contents).

(** The callback with its filter [/\.js$/]: a path the filter rejects is
    not handled; [readFile] is [fs.promises.readFile(fileName, 'utf8')]. *)
Definition onLoad (G : Globals) (readFile : string -> completion string)
           (file : string) : option (completion string) :=
  if JsString.endsWith ".js" file then
    Some (contents <- readFile file ;; transformContent G contents)
  else None.

(** Locale keys that the translate expression reads as literal text. *)
Definition literalKeys (G : Globals) : bool :=
  forallb regexLiteral (Locale.keys (Locale.spread (english G) (activeLocale G))).

(** What [console.info] logs for the outputs of a build. *)
Definition sizesOf (outs : list OutputFile) : list logEntry :=
  map (fun out => LogSize (path out) (String.length (contents out))) outs.

(** The events by which the disk changes the output file: the progress
    of a write and its completion without error. *)
Definition writesFile (ev : event) : bool :=
  match ev with
  | WriteProgress _ | WriteDone None => true
  | _ => false
  end.

(** ** Texts with markers *)

(** What a template is made of, between stretches of other text. *)
Inductive piece : Type :=
| LocaleNameMarker
| TranslateMarker (withSpace : bool) (key : string)
| PackageMarker (path : string)
| Plain (text : string).

Definition pieceText (pc : piece) : string :=
  match pc with
  | LocaleNameMarker => "{{localeName}}"
  | TranslateMarker withSpace key => translateMarker withSpace key
  | PackageMarker p => "{{package.json:" ++ p ++ "}}"
  | Plain text => text
  end.

(** The text: every stretch followed by its piece, then the end. *)
Fixpoint render (items : list (string * piece)) (last : string) : string :=
  match items with
  | [] => last
  | (pre, pc) :: rest => pre ++ pieceText pc ++ render rest last
  end.

(** No line terminator in the text. *)
Fixpoint singleLine (s : string) : bool :=
  match s with
  | EmptyString => true
  | String c t => negb (JsString.isLineTerminator c) && singleLine t
  end.

(** A text that can be inserted as it is: no opening brace, no
    replacement pattern. *)
Definition plainText (s : string) : bool := braceFree s && plainReplacement s.

(** A dotted path as a marker carries it: not empty, on one line, without
    braces. *)
Definition plainPath (p : string) : bool :=
  negb (String.eqb p EmptyString) && lacks "{" p && lacks "}" p && singleLine p.

Definition pieceOk (pc : piece) : bool :=
  match pc with
  | LocaleNameMarker => true
  | TranslateMarker _ key => plainKey key
  | PackageMarker p => plainPath p
  | Plain text => braceFree text
  end.

Definition isMarker (pc : piece) : bool :=
  match pc with
  | Plain _ => false
  | _ => true
  end.

Definition itemsOk (items : list (string * piece)) : bool :=
  forallb (fun it => braceFree (fst it) && pieceOk (snd it)) items.

(** The locale data the locale pass can take literally. *)
Definition localeOk (G : Globals) : bool :=
  plainText (localeName G)
  && forallb (fun kv => plainKey (fst kv) && plainText (snd kv))
       (Locale.spread (english G) (activeLocale G)).

(** What the locale pass makes of a piece. *)
Definition localizePiece (G : Globals) (pc : piece) : piece :=
  match pc with
  | LocaleNameMarker => Plain (localeName G)
  | TranslateMarker _ key =>
      match Locale.lookup key (Locale.spread (english G) (activeLocale G)) with
      | Some v => Plain v
      | None => pc
      end
  | _ => pc
  end.

(** What the metadata pass makes of a piece. *)
Definition injectPiece (G : Globals) (pc : piece) : piece :=
  match pc with
  | PackageMarker p => Plain (resolvedText G ("package.json:" ++ p))
  | _ => pc
  end.

(** A package marker whose value can be inserted as it is and brings no
    brace; any other piece. *)
Definition valueOk (G : Globals) (pc : piece) : bool :=
  match pc with
  | PackageMarker p =>
      literalValue G ("package.json:" ++ p)
      && braceFree (resolvedText G ("package.json:" ++ p))
  | _ => true
  end.

Definition valuesOk (G : Globals) (items : list (string * piece)) : bool :=
  forallb (fun it => valueOk G (snd it)) items.

Definition isPackage (pc : piece) : bool :=
  match pc with
  | PackageMarker _ => true
  | _ => false
  end.

(** The matches the metadata expression finds in a rendered text. *)
Fixpoint packageMatchesOf (items : list (string * piece)) : list string :=
  match items with
  | [] => []
  | (_, PackageMarker p) :: rest => ("package.json:" ++ p) :: packageMatchesOf rest
  | _ :: rest => packageMatchesOf rest
  end.

Definition mapPieces (f : piece -> piece) (items : list (string * piece))
  : list (string * piece) :=
  map (fun it => (fst it, f (snd it))) items.

(** A piece after one replacement pass: the pieces the pass hits give way
    to the replacement. *)
Definition passPiece (hits : piece -> bool) (replaceValue : string) (pc : piece)
  : piece :=
  if hits pc then Plain replaceValue else pc.

Definition isLocaleName (pc : piece) : bool :=
  match pc with
  | LocaleNameMarker => true
  | _ => false
  end.

Definition isTranslateOf (key : string) (pc : piece) : bool :=
  match pc with
  | TranslateMarker _ key' => String.eqb key' key
  | _ => false
  end.

(** The translation the locale pass substitutes for a key of the merged
    mapping. *)
Definition translationOf (G : Globals) (key : string) : string :=
  match Locale.lookup key (Locale.spread (english G) (activeLocale G)) with
  | Some v => v
  | None => "undefined"
  end.

(** Sample data whose translations and metadata hold no replacement
    pattern. *)
Definition plainGlobals : Globals :=
  {| english := [("hello", "Hello"); ("bye", "Goodbye"); ("title", "Wiki")];
     activeLocale := [("hello", "Bonjour"); ("title", "Le Wiki")];
     localeName := "fr-FR";
     packageJson :=
       [ ("name", JString "feather-wiki");
         ("version", JString "1.8.0");
         ("repository", JObject [("type", JString "git"); ("url", JNull)]) ];
     runtime := sampleRuntime |}.

Definition samplePage : list (string * piece) :=
  [ ("<html lang=", LocaleNameMarker);
    ("><title>", TranslateMarker true "title");
    (" ", PackageMarker "version");
    ("</title><p>", TranslateMarker false "bye");
    (" ", TranslateMarker false "unknown");
    (" ", PackageMarker " repository.type ") ].

(** A cut found after a stretch that was passed over. *)
Definition prepend (x : string) (cut : option (string * string))
  : option (string * string) :=
  match cut with
  | Some (b, a) => Some (x ++ b, a)
  | None => None
  end.

(** A text made of white space only. *)
Fixpoint blank (s : string) : bool :=
  match s with
  | EmptyString => true
  | String c t => JsString.isWhiteSpace c && blank t
  end.

(* ===================================================================== *)
(** * Properties                                                           *)
(* ===================================================================== *)

Unset Implicit Arguments.

(** ** Concrete runs of the primitives and of the two passes *)

Example replace_first_only :
  JsString.replace "ab" "X" "zabab" = "zXab".
Proof. reflexivity. Qed.

Example replace_patterns :
  JsString.replace "ab" "[$$|$&|$`|$'|$1|$]" "zabc" = "z[$|ab|z|c|$1|$]c".
Proof. reflexivity. Qed.

Example split_dots : JsString.split "." "a.b..c" = ["a"; "b"; ""; "c"].
Proof. reflexivity. Qed.

Example split_nothing : JsString.split "." "" = [""].
Proof. reflexivity. Qed.

Example trim_both_ends : JsString.trim "  a b  " = "a b".
Proof. reflexivity. Qed.

Example array_to_string :
  ToString sampleRuntime
    (JArray [JNumber "12"; JNull; JString "x"; JNumber "-3.5"; JNumber "1e+21"])
  = Normal "12,,x,-3.5,1e+21".
Proof. reflexivity. Qed.

Example object_to_string :
  ToString sampleRuntime (JObject [("type", JString "git")]) = Normal "[object Object]"
  /\ ToString sampleRuntime (JObject [("toString", JString "git")])
     = Throw (TypeError "Cannot convert object to primitive value").
Proof. split; reflexivity. Qed.

Example lengths :
  get sampleRuntime (JString "feather-wiki") "length" = Normal (JNumber "12")
  /\ get sampleRuntime (JString "") "length" = Normal (JNumber "0").
Proof. split; reflexivity. Qed.

Example inject_name_and_version :
  injectPackageVariables sampleGlobals
    "<title>{{package.json:name}} v{{package.json: version }}</title>"
  = Normal "<title>feather-wiki v1.8.0</title>".
Proof. vm_compute; reflexivity. Qed.

Example inject_nested_paths :
  injectPackageVariables sampleGlobals
    "{{package.json:repository.type}}|{{package.json:repository.url}}|{{package.json:keywords.1}}|{{package.json:keywords.length}}|{{package.json:keywords}}|{{package.json:a.b.c}}"
  = Normal "git||quine|2|wiki,quine|".
Proof. vm_compute; reflexivity. Qed.

Example inject_same_marker_twice :
  injectPackageVariables sampleGlobals
    "{{package.json:name}} and {{package.json:name}}"
  = Normal "feather-wiki and feather-wiki".
Proof. vm_compute; reflexivity. Qed.

Example localize_page :
  localize sampleGlobals
    "<html lang={{localeName}}>{{translate: hello}} {{translate:bye}} {{translate:nope}}"
  = "<html lang=fr-FR>Bonjour Goodbye {{translate:nope}}".
Proof. vm_compute; reflexivity. Qed.
(** ** Dotted-path resolution *)

Section Resolution.

Variable G : Globals.

Lemma reducer_rawLookup acc current :
  reducer G acc current
  = (v <- rawLookup G acc current ;; Normal (coalesce v (JString ""))).
Proof. destruct acc; reflexivity. Qed.

Lemma coalesce_not_nullish v : isNullish (coalesce v (JString "")) = false.
Proof. destruct v; reflexivity. Qed.

Lemma quietName_inherited v k :
  quietName G k = true -> inherited (runtime G) v k = Normal JUndefined.
Proof.
  unfold quietName. intros H. apply inherited_nothing.
  destruct (member (runtime G) k); [discriminate | reflexivity].
Qed.






Lemma reducer_not_nullish acc current v :
  reducer G acc current = Normal v -> isNullish v = false.
Proof.
  rewrite reducer_rawLookup. destruct (rawLookup G acc current); simpl.
  - intros H; inversion H; apply coalesce_not_nullish.
  - discriminate.
Qed.



(** What a reduction over at least one segment returns is neither [null]
    nor [undefined]. *)
Lemma reduce_not_nullish segs : forall init acc,
  segs <> [] -> reduce (reducer G) segs init = Normal acc -> isNullish acc = false.
Proof.
  induction segs as [|s rest IH]; intros init acc Hne Hacc; [congruence|].
  cbn [reduce] in Hacc.
  destruct (reducer G init s) as [v|e] eqn:Hv; simpl in Hacc; [|discriminate].
  destruct rest as [|s' rest'].
  - simpl in Hacc. inversion Hacc; subst. exact (reducer_not_nullish _ _ _ Hv).
  - apply (IH v acc); [discriminate | exact Hacc].
Qed.


Lemma reduce_app (segs1 segs2 : list string) : forall acc,
  reduce (reducer G) (segs1 ++ segs2)%list acc
  = (a <- reduce (reducer G) segs1 acc ;; reduce (reducer G) segs2 a).
Proof.
  induction segs1 as [|s rest IH]; intros acc; simpl; [reflexivity|].
  destruct (reducer G acc s); simpl; [apply IH | reflexivity].
Qed.



(** Once the accumulator is not [null], the descriptor is never
    consulted. *)
Lemma reduce_ignores_descriptor (G' : Globals) segs : forall acc,
  runtime G' = runtime G -> acc <> JNull ->
  reduce (reducer G) segs acc = reduce (reducer G') segs acc.
Proof.
  intros acc HR. revert acc.
  induction segs as [|s rest IH]; intros acc Hacc; [reflexivity|].
  cbn [reduce].
  assert (E : reducer G acc s = reducer G' acc s).
  { unfold reducer. rewrite HR. destruct acc; try reflexivity; congruence. }
  rewrite <- E. destruct (reducer G acc s) as [v|e] eqn:Hv; simpl; [|reflexivity].
  apply IH. apply reducer_not_nullish in Hv. destruct v; simpl in Hv; congruence.
Qed.

Lemma missing_step acc seg x :
  rawLookup G acc seg = Normal x -> isNullish x = true ->
  reducer G acc seg = Normal (JString "").
Proof.
  intros Hx Hn. rewrite reducer_rawLookup, Hx. simpl.
  unfold coalesce. rewrite Hn. reflexivity.
Qed.

(** Past the first segment the read is made in the accumulator. *)
Lemma rawLookup_later segs acc seg :
  segs <> [] -> reduce (reducer G) segs JNull = Normal acc ->
  rawLookup G acc seg = get (runtime G) acc seg.
Proof.
  intros Hne Hacc. pose proof (reduce_not_nullish segs JNull acc Hne Hacc) as Hn.
  destruct acc; try reflexivity. discriminate.
Qed.

Lemma later_missing_step segs1 seg segs2 acc x :
  segs1 <> [] ->
  reduce (reducer G) segs1 JNull = Normal acc ->
  get (runtime G) acc seg = Normal x -> isNullish x = true ->
  reduce (reducer G) (segs1 ++ seg :: segs2)%list JNull
  = reduce (reducer G) segs2 (JString "").
Proof.
  intros Hne Hacc Hx Hn.
  rewrite reduce_app, Hacc. cbn [bind reduce].
  rewrite (missing_step acc seg x); [reflexivity | | exact Hn].
  rewrite (rawLookup_later segs1 acc seg Hne Hacc). exact Hx.
Qed.

End Resolution.


(** A match whose value can be inserted as it is resolves to [valueOf]. *)
Lemma literalValue_resolve G m :
  literalValue G m = true ->
  resolve G m = Normal (valueOf G m)
  /\ isFunction (runtime G) (valueOf G m) = false
  /\ ToString (runtime G) (valueOf G m) = Normal (resolvedText G m)
  /\ plainReplacement (resolvedText G m) = true.
Proof.
  unfold literalValue, valueOf, resolvedText.
  destruct (resolve G m) as [v|e]; [|discriminate].
  intros H. apply andb_prop in H. destruct H as [Hf Ht].
  destruct (ToString (runtime G) v) as [t|e]; [|discriminate].
  repeat split; try reflexivity; [|exact Ht].
  destruct (isFunction (runtime G) v); [discriminate | reflexivity].
Qed.

Lemma mapMatches_literal G matches :
  (forall m, In m matches -> literalValue G m = true) ->
  mapMatches G matches
  = Normal (map (fun m => {| matchText := "{{" ++ m ++ "}}";
                             replaceValue := valueOf G m |}) matches).
Proof.
  induction matches as [|m rest IH]; intros H; [reflexivity|].
  cbn [mapMatches map].
  destruct (literalValue_resolve G m (H m (or_introl eq_refl))) as (Hv & _).
  rewrite Hv, IH; [reflexivity|]. intros m' Hm'. apply H. right; exact Hm'.
Qed.



(** The resolution can raise, and can yield a function: the segments
    [constructor] and [caller] name members that every value inherits. *)
Example inherited_member_raises :
  resolve sampleGlobals "package.json:constructor.caller"
  = Throw (TypeError "'caller' may not be accessed on this function")
  /\ injectPackageVariables sampleGlobals "v{{package.json:constructor.caller}}"
     = Throw (TypeError "'caller' may not be accessed on this function").
Proof. split; reflexivity. Qed.

Example inherited_member_is_called :
  resolve sampleGlobals "package.json:toString" = Normal (JHost 0)
  /\ injectPackageVariables sampleGlobals "[{{package.json:toString}}]"
     = Normal "[[object Undefined]]".
Proof. split; reflexivity. Qed.

Example missing_segment_then_inherited_member :
  Json.lookup "homepage" (packageJson sampleGlobals) = None
  /\ resolve sampleGlobals "package.json:homepage.constructor.name"
     = Normal (JString "String").
Proof. split; reflexivity. Qed.

(** C3 (as amended).  The top-level fields of the descriptor are read for
    the first segment only, when the accumulator is the initial [null]:
    the reduction then goes on from that field (with [?? '']).  A [null]
    read at a later segment is turned into the empty string, and the rest
    of the path is reduced from the empty string, whatever the top-level
    fields hold. *)
Theorem top_level_read_only_at_first_segment (G : Globals) :
  (forall current rest,
      reduce (reducer G) (current :: rest) JNull
      = (v <- get (runtime G) (JObject (packageJson G)) current ;;
         reduce (reducer G) rest (coalesce v (JString ""))))
  /\ (forall segs1 seg segs2 acc,
        segs1 <> [] ->
        reduce (reducer G) segs1 JNull = Normal acc ->
        get (runtime G) acc seg = Normal JNull ->
        forall G', runtime G' = runtime G ->
                   reduce (reducer G) (segs1 ++ seg :: segs2)%list JNull
                   = reduce (reducer G') segs2 (JString "")).
Proof.
  split.
  - intros current rest. cbn [reduce]. unfold reducer at 1.
    destruct (get (runtime G) (JObject (packageJson G)) current); reflexivity.
  - intros segs1 seg segs2 acc Hne Hacc Hx G' HR.
    rewrite (later_missing_step G segs1 seg segs2 acc JNull Hne Hacc Hx eq_refl).
    apply reduce_ignores_descriptor; [exact HR | discriminate].
Qed.

Lemma top_level_read_only_at_first_segment_witness :
  (["repository"] <> []
   /\ reduce (reducer sampleGlobals) ["repository"] JNull
      = Normal (JObject [("type", JString "git"); ("url", JNull)])
   /\ get (runtime sampleGlobals) (JObject [("type", JString "git"); ("url", JNull)]) "url"
      = Normal JNull
   /\ runtime plainGlobals = runtime sampleGlobals)
  /\ reduce (reducer sampleGlobals) (["repository"] ++ "url" :: ["type"])%list JNull
     = reduce (reducer plainGlobals) ["type"] (JString "").
Proof.
  split.
  - split; [discriminate|]. repeat (split; [reflexivity|]). reflexivity.
  - refine (proj2 (top_level_read_only_at_first_segment sampleGlobals)
               ["repository"] "url" ["type"]
               (JObject [("type", JString "git"); ("url", JNull)])
               _ eq_refl eq_refl plainGlobals eq_refl).
    discriminate.
Defined.

(** C3, as stated, fails: in [repository.url.name] the accumulated value
    becomes [null] at [url], yet [name] is not read from the top-level
    fields, where it is the package name: the marker resolves to the
    empty string. *)
Lemma null_field_does_not_restart :
  reduce (reducer sampleGlobals) ["repository"] JNull
  = Normal (JObject [("type", JString "git"); ("url", JNull)])
  /\ get (runtime sampleGlobals) (JObject [("type", JString "git"); ("url", JNull)]) "url"
     = Normal JNull
  /\ get (runtime sampleGlobals) (JObject (packageJson sampleGlobals)) "name"
     = Normal (JString "feather-wiki")
  /\ resolve sampleGlobals "package.json:repository.url.name" = Normal (JString "")
  /\ resolve sampleGlobals "package.json:repository.url.name"
     <> Normal (JString "feather-wiki")
  /\ injectPackageVariables sampleGlobals "[{{package.json:repository.url.name}}]"
     = Normal "[]".
Proof.
  repeat (split; [reflexivity|]). split; [discriminate | reflexivity].
Qed.




(** ** Strings *)

Lemma stripPrefix_sound p : forall s r,
  JsString.stripPrefix p s = Some r -> s = p ++ r.
Proof.
  induction p as [|a p IH]; intros s r; simpl.
  - intros H; inversion H; reflexivity.
  - destruct s as [|b s]; [discriminate|].
    destruct (Ascii.eqb_spec a b); [|discriminate].
    intros H. subst b. simpl. f_equal. apply IH; exact H.
Qed.

Lemma stripPrefix_append p : forall r, JsString.stripPrefix p (p ++ r) = Some r.
Proof.
  induction p as [|a p IH]; intros r; simpl; [reflexivity|].
  rewrite Ascii.eqb_refl. apply IH.
Qed.

Lemma splitAtFirst_sound pat : forall s b a,
  JsString.splitAtFirst pat s = Some (b, a) -> s = b ++ pat ++ a.
Proof.
  induction s as [|c t IH]; intros b a; simpl.
  - destruct (JsString.stripPrefix pat "") as [r|] eqn:E; [|discriminate].
    intros H; inversion H; subst. apply stripPrefix_sound in E. exact E.
  - destruct (JsString.stripPrefix pat (String c t)) as [r|] eqn:E.
    + intros H; inversion H; subst. apply stripPrefix_sound in E. exact E.
    + destruct (JsString.splitAtFirst pat t) as [[b' a']|] eqn:E'; [|discriminate].
      intros H; inversion H; subst. simpl. f_equal. apply IH. reflexivity.
Qed.

Lemma append_assoc (a b c : string) : (a ++ b) ++ c = a ++ b ++ c.
Proof. induction a as [|x a IH]; simpl; [reflexivity | f_equal; exact IH]. Qed.

Lemma append_empty_r (a : string) : a ++ "" = a.
Proof. induction a as [|x a IH]; simpl; [reflexivity | f_equal; exact IH]. Qed.

Lemma append_length (a b : string) :
  String.length (a ++ b) = String.length a + String.length b.
Proof. induction a as [|x a IH]; simpl; [reflexivity | f_equal; exact IH]. Qed.

(** A replacement text without replacement patterns is inserted as it is. *)
Lemma GetSubstitution_plain matched before after : forall template,
  plainReplacement template = true ->
  JsString.GetSubstitution matched before after template = template.
Proof.
  induction template as [|c t IH]; [reflexivity|].
  intros Hp. cbn [plainReplacement] in Hp.
  apply andb_true_iff in Hp. destruct Hp as [Hc Ht].
  specialize (IH Ht). cbn [JsString.GetSubstitution].
  destruct (Ascii.eqb c "$").
  - destruct t as [|d rest]; [reflexivity|].
    apply negb_true_iff in Hc.
    apply orb_false_iff in Hc. destruct Hc as [Hc H4].
    apply orb_false_iff in Hc. destruct Hc as [Hc H3].
    apply orb_false_iff in Hc. destruct Hc as [H1 H2].
    rewrite H1, H2, H3, H4. f_equal. exact IH.
  - f_equal. exact IH.
Qed.

Lemma replace_plain marker value text :
  plainReplacement value = true ->
  JsString.replace marker value text = replaceLiteral marker value text.
Proof.
  intros Hp. unfold JsString.replace, replaceLiteral.
  destruct (JsString.splitAtFirst marker text) as [[b a]|]; [|reflexivity].
  rewrite GetSubstitution_plain by exact Hp. reflexivity.
Qed.

Lemma includes_false_splitAtFirst pat s :
  JsString.includes pat s = false -> JsString.splitAtFirst pat s = None.
Proof.
  unfold JsString.includes. destruct (JsString.splitAtFirst pat s); [discriminate | reflexivity].
Qed.

Lemma splitFuel_absent sep s n :
  JsString.includes sep s = false -> JsString.splitFuel n sep s = [s].
Proof.
  intros H. apply includes_false_splitAtFirst in H.
  destruct n; simpl; [reflexivity | rewrite H; reflexivity].
Qed.

(** A text with a single separator is cut in two. *)
Lemma split_single sep s P S :
  sep <> "" ->
  JsString.splitAtFirst sep s = Some (P, S) ->
  JsString.includes sep S = false ->
  JsString.split sep s = [P; S].
Proof.
  intros Hsep Hcut Hno. unfold JsString.split.
  pose proof (splitAtFirst_sound sep s P S Hcut) as Hs.
  assert (Hlen : String.length s <> 0).
  { rewrite Hs, !append_length. destruct sep; [congruence | simpl; lia]. }
  destruct (String.length s) as [|n]; [congruence|].
  simpl. rewrite Hcut. f_equal. apply splitFuel_absent; exact Hno.
Qed.

(** ** The metadata pass *)

(** A replacement that is not a function is converted to a string. *)
Lemma replaceWith_text R marker v t text :
  isFunction R v = false -> ToString R v = Normal t ->
  replaceWith R marker v text = Normal (JsString.replace marker t text).
Proof.
  intros Hf Ht. unfold replaceWith.
  destruct v; try (rewrite Ht; reflexivity).
  simpl in Hf, Ht. rewrite Hf, Ht. reflexivity.
Qed.

Lemma applySubstitutions_literal G matches : forall text,
  (forall m, In m matches -> literalValue G m = true) ->
  applySubstitutions G
    (map (fun m => {| matchText := "{{" ++ m ++ "}}";
                      replaceValue := valueOf G m |}) matches) text
  = Normal (fold_left
              (fun result m => replaceLiteral ("{{" ++ m ++ "}}") (resolvedText G m) result)
              matches text).
Proof.
  induction matches as [|m rest IH]; intros text Hp; [reflexivity|].
  cbn [map fold_left applySubstitutions matchText replaceValue].
  destruct (literalValue_resolve G m (Hp m (or_introl eq_refl))) as (_ & Hf & Ht & Hplain).
  rewrite (replaceWith_text _ _ _ _ _ Hf Ht). cbn [bind].
  rewrite replace_plain by exact Hplain.
  apply IH. intros m' Hm'. apply Hp. right. exact Hm'.
Qed.

Lemma injectPackageVariables_literal G text :
  (forall m, In m (packageMatches text) -> literalValue G m = true) ->
  injectPackageVariables G text = Normal (injectLiteral G text).
Proof.
  intros Hp. unfold injectPackageVariables, injectLiteral.
  destruct (packageMatches text) as [|m rest] eqn:Hm; [reflexivity|].
  rewrite mapMatches_literal by exact Hp. cbn [bind].
  apply applySubstitutions_literal. exact Hp.
Qed.

(** The metadata pass of the HTML is that of the script sources, followed
    by the write. *)
Lemma injectPackageJsonData_agrees G env html w :
  injectPackageJsonData G env html w
  = match injectPackageVariables G html with
    | Normal html' => writeHtmlOutput env html' w
    | Throw e => (w, Throw e)
    end.
Proof.
  unfold injectPackageJsonData, injectPackageVariables.
  destruct (packageMatches html); reflexivity.
Qed.




(** ** HTML assembly *)

(** C6 (as amended).  When the style output holds no replacement pattern
    and the shell, once the first CSS marker has given way to the style
    output, holds exactly one JS marker, the assembled document is that
    text with the script output in place of the JS marker: prefix, script,
    suffix.  The script output is spliced as it is, whatever it holds. *)
Theorem assemble_replaces_both_markers
        (shell : string) (cssOut jsOut : OutputFile) (A B P S : string) :
  JsString.endsWith ".css" (path cssOut) = true ->
  JsString.endsWith ".css" (path jsOut) = false ->
  JsString.endsWith ".js" (path jsOut) = true ->
  JsString.splitAtFirst "{{cssOutput}}" shell = Some (A, B) ->
  plainReplacement (contents cssOut) = true ->
  JsString.splitAtFirst "{{jsOutput}}" (A ++ contents cssOut ++ B) = Some (P, S) ->
  JsString.includes "{{jsOutput}}" S = false ->
  shell = A ++ "{{cssOutput}}" ++ B
  /\ A ++ contents cssOut ++ B = P ++ "{{jsOutput}}" ++ S
  /\ assemble shell [cssOut; jsOut] = P ++ contents jsOut ++ S.
Proof.
  intros Hcss Hjs1 Hjs2 Hcut Hplain Hcut2 Hone.
  split; [apply splitAtFirst_sound; exact Hcut|].
  split; [apply splitAtFirst_sound; exact Hcut2|].
  unfold assemble. cbn [fold_left].
  unfold spliceOutput at 2. rewrite Hcss.
  rewrite replace_plain by exact Hplain.
  unfold replaceLiteral. rewrite Hcut.
  unfold spliceOutput. rewrite Hjs1, Hjs2.
  rewrite (split_single "{{jsOutput}}" _ P S) by (discriminate || assumption).
  reflexivity.
Qed.

Lemma assemble_replaces_both_markers_witness :
  (JsString.endsWith ".css" "build/index.css" = true
   /\ JsString.endsWith ".css" "build/index.js" = false
   /\ JsString.endsWith ".js" "build/index.js" = true
   /\ JsString.splitAtFirst "{{cssOutput}}" sampleShell
      = Some ("<head><style>", "</style></head><body><script>{{jsOutput}}</script></body>")
   /\ plainReplacement "body{margin:0}" = true
   /\ JsString.splitAtFirst "{{jsOutput}}"
        ("<head><style>" ++ "body{margin:0}"
         ++ "</style></head><body><script>{{jsOutput}}</script></body>")
      = Some ("<head><style>body{margin:0}</style></head><body><script>", "</script></body>")
   /\ JsString.includes "{{jsOutput}}" "</script></body>" = false)
  /\ assemble sampleShell
       [ {| path := "build/index.css"; contents := "body{margin:0}" |};
         {| path := "build/index.js"; contents := "s.replace(/x$/, '$&{{cssOutput}}')" |} ]
     = "<head><style>body{margin:0}</style></head><body><script>s.replace(/x$/, '$&{{cssOutput}}')</script></body>".
Proof.
  split.
  - repeat (split; [vm_compute; reflexivity|]). vm_compute; reflexivity.
  - exact (proj2 (proj2 (assemble_replaces_both_markers sampleShell
             {| path := "build/index.css"; contents := "body{margin:0}" |}
             {| path := "build/index.js"; contents := "s.replace(/x$/, '$&{{cssOutput}}')" |}
             "<head><style>" "</style></head><body><script>{{jsOutput}}</script></body>"
             "<head><style>body{margin:0}</style></head><body><script>" "</script></body>"
             eq_refl eq_refl eq_refl eq_refl eq_refl eq_refl eq_refl))).
Defined.

(** C6, as stated, fails.  The shell holds each marker once and the style
    output holds no marker, only [$&]; the CSS marker comes back in the
    assembled document, where the style output was to be. *)
Lemma css_marker_reappears :
  countOccurrences "{{cssOutput}}" sampleShell = 1
  /\ countOccurrences "{{jsOutput}}" sampleShell = 1
  /\ JsString.includes "{{cssOutput}}" "p::after{content:'$&'}" = false
  /\ assemble sampleShell
       [ {| path := "build/index.css"; contents := "p::after{content:'$&'}" |};
         {| path := "build/index.js"; contents := "main()" |} ]
     = "<head><style>p::after{content:'{{cssOutput}}'}</style></head><body><script>main()</script></body>"
  /\ JsString.includes "{{cssOutput}}"
       (assemble sampleShell
          [ {| path := "build/index.css"; contents := "p::after{content:'$&'}" |};
            {| path := "build/index.js"; contents := "main()" |} ])
     = true.
Proof. repeat (split; [vm_compute; reflexivity|]). vm_compute; reflexivity. Qed.

(** A style output that holds the JS marker takes the script in, and the
    end of the shell is lost. *)
Example js_marker_in_style_output :
  assemble sampleShell
    [ {| path := "build/index.css"; contents := "/* {{jsOutput}} */" |};
      {| path := "build/index.js"; contents := "main()" |} ]
  = "<head><style>/* main() */</style></head><body><script>".
Proof. vm_compute; reflexivity. Qed.

(** A script output that holds a marker brings it into the document. *)
Example marker_in_script_output :
  assemble sampleShell
    [ {| path := "build/index.css"; contents := "" |};
      {| path := "build/index.js"; contents := "t.split('{{jsOutput}}')" |} ]
  = "<head><style></style></head><body><script>t.split('{{jsOutput}}')</script></body>".
Proof. vm_compute; reflexivity. Qed.

(** ** The watch loop, the output file and the server *)

Section Process.

Variable G : Globals.

Lemma logOutputs_fields outs : forall w,
  outputDirExists (fold_left logOutput outs w) = outputDirExists w
  /\ outputFile (fold_left logOutput outs w) = outputFile w
  /\ pendingWrites (fold_left logOutput outs w) = pendingWrites w
  /\ exitStatus (fold_left logOutput outs w) = exitStatus w
  /\ listening (fold_left logOutput outs w) = listening w
  /\ console (fold_left logOutput outs w) = (console w ++ sizesOf outs)%list.
Proof.
  induction outs as [|o rest IH]; intros w; cbn [fold_left].
  - repeat (split; [reflexivity|]). simpl. rewrite app_nil_r. reflexivity.
  - destruct (IH (logOutput w o)) as (H1 & H2 & H3 & H4 & H5 & H6).
    repeat (split; [assumption|]). rewrite H6. unfold logOutput, sizesOf. cbn.
    rewrite <- app_assoc. reflexivity.
Qed.

(** Handling a build result: the sizes are logged, then the shell,
    assembled and transformed, is handed to [writeHtmlOutput]; what the
    transform raises is raised. *)
Lemma handleBuildResult_unfold env r w html css :
  readShell env = Normal html ->
  buildSyncCss env = Normal css ->
  handleBuildResult G env r w
  = match transformContent G (assemble html (css ++ outputFiles r)%list) with
    | Normal document =>
        writeHtmlOutput env document
          (fold_left logOutput (css ++ outputFiles r)%list w)
    | Throw e => (fold_left logOutput (css ++ outputFiles r)%list w, Throw e)
    end.
Proof.
  intros Hshell Hcss. unfold handleBuildResult. rewrite Hshell, Hcss.
  rewrite injectPackageJsonData_agrees. reflexivity.
Qed.

(** With the output directory there, or made, the write is started. *)
Lemma writeHtmlOutput_starts env document w :
  outputDirExists w = true \/ mkdirSync env = Normal tt ->
  writeHtmlOutput env document w
  = ({| outputDirExists := true;
        outputFile := outputFile w;
        pendingWrites := (pendingWrites w ++ [document])%list;
        console := console w;
        exitStatus := exitStatus w;
        listening := listening w |}, Normal tt).
Proof.
  intros H. unfold writeHtmlOutput.
  destruct (outputDirExists w) eqn:Hd; [cbn; rewrite Hd; reflexivity|].
  destruct H as [H|H]; [discriminate|]. rewrite H. reflexivity.
Qed.

End Process.

(** C5.  A build result that reports errors is logged and nothing else:
    no assembly, no write started, the output file as it was, the process
    still running.  The next result without errors is handled as usual:
    the sizes are logged, the shell is assembled and transformed, and the
    write of the new document is started, the file still as it was. *)
Theorem failed_rebuild_keeps_output
        (G : Globals) (env : Env) (r : BuildResult) (w : World) :
  errors r <> [] ->
  exitStatus w = None ->
  fst (step G w (BuildEnd env (Some r))) = log (LogBuildFailed (errors r)) w
  /\ outputFile (fst (step G w (BuildEnd env (Some r)))) = outputFile w
  /\ pendingWrites (fst (step G w (BuildEnd env (Some r)))) = pendingWrites w
  /\ exitStatus (fst (step G w (BuildEnd env (Some r)))) = None
  /\ forall env' r' html css document,
      errors r' = [] ->
      readShell env' = Normal html ->
      buildSyncCss env' = Normal css ->
      outputDirExists w = true \/ mkdirSync env' = Normal tt ->
      literalKeys G = true ->
      transformContent G (assemble html (css ++ outputFiles r')%list) = Normal document ->
      fst (step G (fst (step G w (BuildEnd env (Some r)))) (BuildEnd env' (Some r')))
      = {| outputDirExists := true;
           outputFile := outputFile w;
           pendingWrites := (pendingWrites w ++ [document])%list;
           console := (console w ++ LogBuildFailed (errors r)
                                 :: sizesOf (css ++ outputFiles r'))%list;
           exitStatus := None;
           listening := listening w |}.
Proof.
  intros Herr Hrun.
  assert (E : fst (step G w (BuildEnd env (Some r))) = log (LogBuildFailed (errors r)) w).
  { unfold step. rewrite Hrun. cbn [fst onEnd].
    destruct (errors r); [congruence | reflexivity]. }
  rewrite E. split; [reflexivity|]. split; [reflexivity|]. split; [reflexivity|].
  split; [exact Hrun|].
  intros env' r' html css document Herr' Hshell Hcss Hdir _ Hdoc.
  unfold step. cbn [exitStatus log]. rewrite Hrun. cbn [fst onEnd]. rewrite Herr'.
  rewrite (handleBuildResult_unfold G env' r' _ html css Hshell Hcss), Hdoc.
  destruct (logOutputs_fields (css ++ outputFiles r')%list (log (LogBuildFailed (errors r)) w))
    as (H1 & H2 & H3 & H4 & H5 & H6).
  rewrite writeHtmlOutput_starts by (rewrite H1; exact Hdir).
  rewrite H2, H3, H4, H5, H6. cbn [log outputFile pendingWrites exitStatus listening console].
  rewrite Hrun, <- app_assoc. reflexivity.
Qed.

Lemma failed_rebuild_keeps_output_witness :
  (errors {| errors := ["index.js:1:0: Unexpected end of file"]; outputFiles := [] |} <> []
   /\ exitStatus builtWorld = None
   /\ errors sampleResult = []
   /\ readShell sampleEnv = Normal sampleShell
   /\ buildSyncCss sampleEnv
      = Normal [ {| path := "build/index.css"; contents := "body{margin:0}" |} ]
   /\ (outputDirExists builtWorld = true \/ mkdirSync sampleEnv = Normal tt)
   /\ literalKeys sampleGlobals = true
   /\ transformContent sampleGlobals
        (assemble sampleShell
           ([ {| path := "build/index.css"; contents := "body{margin:0}" |} ]
            ++ outputFiles sampleResult)%list)
      = Normal sampleDocument)
  /\ outputFile
       (fst (step sampleGlobals builtWorld
               (BuildEnd sampleEnv
                  (Some {| errors := ["index.js:1:0: Unexpected end of file"];
                           outputFiles := [] |}))))
     = Some "<html>the previous build</html>"
  /\ fst (step sampleGlobals
            (fst (step sampleGlobals builtWorld
                    (BuildEnd sampleEnv
                       (Some {| errors := ["index.js:1:0: Unexpected end of file"];
                                outputFiles := [] |}))))
            (BuildEnd sampleEnv (Some sampleResult)))
     = {| outputDirExists := true;
          outputFile := Some "<html>the previous build</html>";
          pendingWrites := [sampleDocument];
          console :=
            [ LogBuildFailed ["index.js:1:0: Unexpected end of file"];
              LogSize "build/index.css" 14;
              LogSize "build/index.js" 30 ];
          exitStatus := None;
          listening := true |}.
Proof.
  assert (H : errors {| errors := ["index.js:1:0: Unexpected end of file"];
                        outputFiles := [] |} <> []) by discriminate.
  assert (Hdoc : transformContent sampleGlobals
                   (assemble sampleShell
                      ([ {| path := "build/index.css"; contents := "body{margin:0}" |} ]
                       ++ outputFiles sampleResult)%list)
                 = Normal sampleDocument) by (vm_compute; reflexivity).
  pose proof (failed_rebuild_keeps_output sampleGlobals sampleEnv
                {| errors := ["index.js:1:0: Unexpected end of file"]; outputFiles := [] |}
                builtWorld H eq_refl) as T.
  split.
  - split; [exact H|]. repeat (split; [reflexivity|]).
    split; [left; reflexivity|]. split; [reflexivity | exact Hdoc].
  - split; [exact (proj1 (proj2 T))|].
    exact (proj2 (proj2 (proj2 (proj2 T))) sampleEnv sampleResult sampleShell
             [ {| path := "build/index.css"; contents := "body{margin:0}" |} ]
             sampleDocument eq_refl eq_refl eq_refl (or_introl eq_refl) eq_refl Hdoc).
Defined.

(** After a first build without errors the server listens while the
    document is still to be written: the output file is as it was before
    [start]. *)
Lemma start_leaves_write_pending
      (G : Globals) (env : Env) (result : BuildResult) (w : World)
      (html : string) (css : list OutputFile) (document : string) :
  exitStatus w = None ->
  errors result = [] ->
  readShell env = Normal html ->
  buildSyncCss env = Normal css ->
  mkdirSync env = Normal tt ->
  transformContent G (assemble html (css ++ outputFiles result)%list) = Normal document ->
  start G (Normal tt) env result w
  = log (LogText "Node server running at http://localhost:3000")
      {| outputDirExists := true;
         outputFile := outputFile w;
         pendingWrites := (pendingWrites w ++ [document])%list;
         console := (console w ++ sizesOf (css ++ outputFiles result))%list;
         exitStatus := None;
         listening := true |}.
Proof.
  intros Hrun Herr Hshell Hcss Hmk Hdoc.
  unfold start, onEnd. rewrite Herr.
  rewrite (handleBuildResult_unfold G env result w html css Hshell Hcss), Hdoc.
  destruct (logOutputs_fields (css ++ outputFiles result)%list w)
    as (H1 & H2 & H3 & H4 & H5 & H6).
  rewrite writeHtmlOutput_starts by (right; exact Hmk).
  rewrite H2, H3, H4, H5, H6. cbn [exitStatus]. rewrite Hrun.
  reflexivity.
Qed.

(** C7 fails on the code.  [writeHtmlOutput] awaits [fs.writeFile] called
    with a callback, which only starts the write.  After [start] on a fresh
    checkout the server listens while the document is still waiting to be
    written: a request handled at that point finds no file, the listener
    raises and the process ends.  Had the write completed first, the same
    request would have been answered. *)
Theorem first_request_may_precede_the_write :
  start sampleGlobals (Normal tt) sampleEnv sampleResult freshWorld
  = {| outputDirExists := true;
       outputFile := None;
       pendingWrites := [sampleDocument];
       console :=
         [ LogSize "build/index.css" 14;
           LogSize "build/index.js" 30;
           LogText "Node server running at http://localhost:3000" ];
       exitStatus := None;
       listening := true |}
  /\ (forall req,
        let w := start sampleGlobals (Normal tt) sampleEnv sampleResult freshWorld in
        snd (step sampleGlobals w (Incoming req)) = None
        /\ exitStatus (fst (step sampleGlobals w (Incoming req))) = Some 1%Z
        /\ snd (run sampleGlobals w [WriteDone None; Incoming req])
           = [ {| statusCode := 200;
                  headers := [("Content-Type", "text/html")];
                  body := sampleDocument |} ]).
Proof.
  assert (E : start sampleGlobals (Normal tt) sampleEnv sampleResult freshWorld
              = {| outputDirExists := true;
                   outputFile := None;
                   pendingWrites := [sampleDocument];
                   console :=
                     [ LogSize "build/index.css" 14;
                       LogSize "build/index.js" 30;
                       LogText "Node server running at http://localhost:3000" ];
                   exitStatus := None;
                   listening := true |})
    by (vm_compute; reflexivity).
  split; [exact E|]. intros req w. subst w. rewrite E.
  repeat (split; [reflexivity|]). reflexivity.
Qed.

(** C8.  An exception raised while the build result is handled (reading
    the shell, building the style sheet, resolving the metadata, creating
    the output directory) is caught by [onEnd], logged, and the process
    exits with status 1.  An error reported for the write reaches the
    callback of [fs.writeFile], which rethrows it: it is printed and the
    process ends with status 1. *)
Theorem exception_is_fatal (G : Globals) :
  (forall env r w w1 e,
      exitStatus w = None -> errors r = [] ->
      handleBuildResult G env r w = (w1, Throw e) ->
      In (LogError e) (console (fst (step G w (BuildEnd env (Some r)))))
      /\ exitStatus (fst (step G w (BuildEnd env (Some r)))) = Some 1%Z)
  /\ (forall w html rest e,
        exitStatus w = None -> pendingWrites w = html :: rest ->
        In (LogError e) (console (fst (step G w (WriteDone (Some e)))))
        /\ exitStatus (fst (step G w (WriteDone (Some e)))) = Some 1%Z)
  /\ (forall env r w e,
        readShell env = Throw e -> handleBuildResult G env r w = (w, Throw e))
  /\ (forall env r w html e,
        readShell env = Normal html -> buildSyncCss env = Throw e ->
        handleBuildResult G env r w = (w, Throw e))
  /\ (forall env r w html css e,
        readShell env = Normal html -> buildSyncCss env = Normal css ->
        outputDirExists w = false -> mkdirSync env = Throw e ->
        exists w1 e',
          handleBuildResult G env r w = (w1, Throw e')
          /\ ((exists document,
                  transformContent G (assemble html (css ++ outputFiles r)%list)
                  = Normal document) ->
              e' = e)).
Proof.
  split; [|split; [|split; [|split]]].
  - intros env r w w1 e Hrun Herr Hthrow.
    unfold step. rewrite Hrun. cbn [fst onEnd]. rewrite Herr, Hthrow.
    cbn. split; [|reflexivity]. apply in_or_app. right. left. reflexivity.
  - intros w html rest e Hrun Hpending.
    unfold step. rewrite Hrun. cbn [fst]. unfold writeCompleted. rewrite Hpending.
    cbn. split; [|reflexivity]. apply in_or_app. right. left. reflexivity.
  - intros env r w e H. unfold handleBuildResult. rewrite H. reflexivity.
  - intros env r w html e H1 H2. unfold handleBuildResult. rewrite H1, H2. reflexivity.
  - intros env r w html css e H1 H2 Hdir Hmk.
    rewrite (handleBuildResult_unfold G env r w html css H1 H2).
    destruct (transformContent G (assemble html (css ++ outputFiles r)%list))
      as [document|e'].
    + unfold writeHtmlOutput.
      destruct (logOutputs_fields (css ++ outputFiles r)%list w) as (Hd & _).
      rewrite Hd, Hdir, Hmk. eexists; exists e. split; [reflexivity|]. reflexivity.
    + eexists; exists e'. split; [reflexivity|]. intros [document Hdoc]. discriminate.
Qed.

Lemma exception_is_fatal_witness :
  (exitStatus freshWorld = None
   /\ errors sampleResult = []
   /\ handleBuildResult sampleGlobals
        {| readShell := Throw (SystemError "ENOENT");
           buildSyncCss := buildSyncCss sampleEnv;
           mkdirSync := Normal tt |} sampleResult freshWorld
      = (freshWorld, Throw (SystemError "ENOENT")))
  /\ In (LogError (SystemError "ENOENT"))
        (console (fst (step sampleGlobals freshWorld
                         (BuildEnd {| readShell := Throw (SystemError "ENOENT");
                                      buildSyncCss := buildSyncCss sampleEnv;
                                      mkdirSync := Normal tt |} (Some sampleResult)))))
  /\ exitStatus (fst (step sampleGlobals freshWorld
                        (BuildEnd {| readShell := Throw (SystemError "ENOENT");
                                     buildSyncCss := buildSyncCss sampleEnv;
                                     mkdirSync := Normal tt |} (Some sampleResult))))
     = Some 1%Z.
Proof.
  split; [repeat (split; [reflexivity|]); reflexivity|].
  exact (proj1 (exception_is_fatal sampleGlobals)
           {| readShell := Throw (SystemError "ENOENT");
              buildSyncCss := buildSyncCss sampleEnv;
              mkdirSync := Normal tt |}
           sampleResult freshWorld freshWorld (SystemError "ENOENT")
           eq_refl eq_refl eq_refl).
Defined.

(** C9 (as amended).  While the output file exists, the running server
    answers every request, whatever its method and path, with status 200,
    the header [Content-Type: text/html] and, handed over as body, the
    content of the output file at that moment; the body is sent for every
    method but HEAD.  A request handled while the file does not exist gets
    no answer: the listener raises, and the process ends with status 1. *)
Theorem request_gets_the_output_file_when_it_exists
        (G : Globals) (w : World) (req : Request) :
  exitStatus w = None ->
  listening w = true ->
  (forall bytes,
      outputFile w = Some bytes ->
      step G w (Incoming req)
      = (w, Some {| statusCode := 200;
                    headers := [("Content-Type", "text/html")];
                    body := bytes |})
      /\ sent req {| statusCode := 200;
                     headers := [("Content-Type", "text/html")];
                     body := bytes |}
         = {| statusCode := 200;
              headers := [("Content-Type", "text/html")];
              body := if String.eqb (method req) "HEAD" then EmptyString else bytes |})
  /\ (outputFile w = None ->
      step G w (Incoming req) = (uncaught (SystemError "ENOENT") w, None)
      /\ exitStatus (fst (step G w (Incoming req))) = Some 1%Z).
Proof.
  intros Hrun Hlisten. split.
  - intros bytes Hfile. split.
    + unfold step, requestListener. rewrite Hrun, Hlisten, Hfile. reflexivity.
    + unfold sent. destruct (String.eqb (method req) "HEAD"); reflexivity.
  - intros Hfile. unfold step, requestListener. rewrite Hrun, Hlisten, Hfile.
    split; reflexivity.
Qed.

Lemma request_gets_the_output_file_when_it_exists_witness :
  (exitStatus servingWorld = None
   /\ listening servingWorld = true
   /\ outputFile servingWorld = Some sampleDocument)
  /\ step sampleGlobals servingWorld (Incoming {| method := "POST"; url := "/foo/bar" |})
     = (servingWorld,
        Some {| statusCode := 200;
                headers := [("Content-Type", "text/html")];
                body := sampleDocument |}).
Proof.
  split; [repeat (split; [reflexivity|]); reflexivity|].
  exact (proj1 (proj1 (request_gets_the_output_file_when_it_exists sampleGlobals servingWorld
                         {| method := "POST"; url := "/foo/bar" |} eq_refl eq_refl)
                  sampleDocument eq_refl)).
Defined.

(** C9, as stated, fails: after [start] on a fresh checkout the server
    listens and the output file is not there yet; the request gets no
    answer, and the process ends. *)
Lemma request_before_the_file_exists :
  listening (start sampleGlobals (Normal tt) sampleEnv sampleResult freshWorld) = true
  /\ exitStatus (start sampleGlobals (Normal tt) sampleEnv sampleResult freshWorld) = None
  /\ outputFile (start sampleGlobals (Normal tt) sampleEnv sampleResult freshWorld) = None
  /\ snd (step sampleGlobals
            (start sampleGlobals (Normal tt) sampleEnv sampleResult freshWorld)
            (Incoming {| method := "GET"; url := "/" |}))
     = None
  /\ exitStatus
       (fst (step sampleGlobals
               (start sampleGlobals (Normal tt) sampleEnv sampleResult freshWorld)
               (Incoming {| method := "GET"; url := "/" |})))
     = Some 1%Z.
Proof. repeat (split; [vm_compute; reflexivity|]). vm_compute; reflexivity. Qed.

(** The answer to a HEAD request goes without the content of the file,
    also while the file is being written: it then holds the part
    written. *)
Example head_request_gets_no_body :
  body (sent {| method := "HEAD"; url := "/" |}
          {| statusCode := 200;
             headers := [("Content-Type", "text/html")];
             body := sampleDocument |})
  = "".
Proof. reflexivity. Qed.

Example request_during_the_write :
  snd (run sampleGlobals
         (start sampleGlobals (Normal tt) sampleEnv sampleResult freshWorld)
         [WriteProgress 0; Incoming {| method := "GET"; url := "/" |}])
  = [ {| statusCode := 200; headers := [("Content-Type", "text/html")]; body := "" |} ].
Proof. vm_compute; reflexivity. Qed.

(** ** Locale mappings *)

Module LocaleFacts.

Import Locale.

Lemma lookup_set k k' v o :
  lookup k (set k' v o) = if String.eqb k k' then Some v else lookup k o.
Proof.
  induction o as [|[k0 v0] rest IH]; simpl.
  - destruct (String.eqb k k'); reflexivity.
  - destruct (String.eqb_spec k' k0) as [E|NE]; simpl.
    + subst k0. destruct (String.eqb k k'); reflexivity.
    + destruct (String.eqb_spec k k0) as [E0|NE0].
      * subst k0. destruct (String.eqb_spec k k'); [congruence | reflexivity].
      * exact IH.
Qed.

Lemma lookup_None_not_in k o : ~ In k (keys o) -> lookup k o = None.
Proof.
  induction o as [|[k0 v0] rest IH]; simpl; intros H; [reflexivity|].
  destruct (String.eqb_spec k k0) as [E|NE].
  - exfalso. apply H. left. congruence.
  - apply IH. intros Hin. apply H. right. exact Hin.
Qed.

Lemma lookup_Some_in k o v : lookup k o = Some v -> In k (keys o).
Proof.
  induction o as [|[k0 v0] rest IH]; simpl; [discriminate|].
  destruct (String.eqb_spec k k0) as [E|NE]; intros H.
  - left. congruence.
  - right. apply IH. exact H.
Qed.

Lemma lookup_assign source : forall target k,
  NoDup (keys source) ->
  lookup k (assign target source)
  = match lookup k source with
    | Some v => Some v
    | None => lookup k target
    end.
Proof.
  unfold assign.
  induction source as [|[k0 v0] rest IH]; intros target k Hnd; [reflexivity|].
  simpl in Hnd. inversion Hnd as [|? ? Hnotin Hnd']; subst.
  cbn [fold_left fst snd]. rewrite IH by exact Hnd'.
  simpl. rewrite lookup_set.
  destruct (String.eqb_spec k k0) as [E|NE].
  - subst k0. rewrite (lookup_None_not_in k rest Hnotin). reflexivity.
  - reflexivity.
Qed.

Lemma in_keys_set x k v o :
  In x (keys (set k v o)) <-> x = k \/ In x (keys o).
Proof.
  induction o as [|[k0 v0] rest IH]; simpl.
  - intuition congruence.
  - destruct (String.eqb_spec k k0) as [E|NE]; simpl.
    + subst k0. intuition congruence.
    + rewrite IH. intuition congruence.
Qed.

Lemma NoDup_keys_set k v o : NoDup (keys o) -> NoDup (keys (set k v o)).
Proof.
  induction o as [|[k0 v0] rest IH]; simpl; intros Hnd.
  - constructor; [intros [] | constructor].
  - inversion Hnd as [|? ? Hnotin Hnd']; subst.
    destruct (String.eqb_spec k k0) as [E|NE]; simpl.
    + subst k0. constructor; assumption.
    + constructor; [|apply IH; exact Hnd'].
      rewrite in_keys_set. intros [E|Hin]; [congruence | contradiction].
Qed.

Lemma NoDup_keys_assign source : forall target,
  NoDup (keys target) -> NoDup (keys (assign target source)).
Proof.
  unfold assign.
  induction source as [|[k0 v0] rest IH]; intros target Hnd; [exact Hnd|].
  cbn [fold_left fst snd]. apply IH. apply NoDup_keys_set. exact Hnd.
Qed.

(** The merged mapping: the active locale first, the default for the
    keys the active locale lacks; its keys are distinct. *)
Lemma lookup_spread a b k :
  NoDup (keys a) -> NoDup (keys b) ->
  lookup k (spread a b)
  = match lookup k b with
    | Some v => Some v
    | None => lookup k a
    end.
Proof.
  intros Ha Hb. unfold spread.
  rewrite lookup_assign by exact Hb.
  rewrite lookup_assign by exact Ha. simpl.
  destruct (lookup k b); [reflexivity|]. destruct (lookup k a); reflexivity.
Qed.

Lemma NoDup_keys_spread a b : NoDup (keys (spread a b)).
Proof.
  unfold spread. apply NoDup_keys_assign. apply NoDup_keys_assign. constructor.
Qed.

End LocaleFacts.

(** Without a file for the selected locale the default mapping is the
    active one; without a default file it is empty. *)
Lemma missing_locale_falls_back localesDir FEATHERWIKI_LOCALE packageJsonFile R :
  let G := loadGlobals localesDir FEATHERWIKI_LOCALE packageJsonFile R in
  loadLocale localesDir (localeName G) = None ->
  activeLocale G = english G
  /\ (loadLocale localesDir "en-US" = None -> english G = []).
Proof.
  intros G H. unfold G, loadGlobals in *. cbn [localeName activeLocale english] in *.
  rewrite H. split; [reflexivity|]. intros H0. rewrite H0. reflexivity.
Qed.

(** ** Scanning for markers *)

Lemma includes_cons pat c t :
  JsString.includes pat (String c t)
  = JsString.startsWith pat (String c t) || JsString.includes pat t.
Proof.
  unfold JsString.includes, JsString.startsWith.
  cbn [JsString.splitAtFirst].
  destruct (JsString.stripPrefix pat (String c t)); [reflexivity|].
  destruct (JsString.splitAtFirst pat t) as [[b a]|]; reflexivity.
Qed.

Lemma startsWith_open_other c t :
  Ascii.eqb c "{" = false -> JsString.startsWith "{{" (String c t) = false.
Proof.
  intros H. unfold JsString.startsWith. cbn [JsString.stripPrefix].
  rewrite Ascii.eqb_sym, H. reflexivity.
Qed.

Lemma startsWith_open_two c d t :
  JsString.startsWith "{{" (String c (String d t))
  = Ascii.eqb "{" c && Ascii.eqb "{" d.
Proof.
  unfold JsString.startsWith. cbn [JsString.stripPrefix].
  destruct (Ascii.eqb "{" c); [|reflexivity].
  destruct (Ascii.eqb "{" d); reflexivity.
Qed.

Lemma lacks_app x a b : lacks x (a ++ b) = lacks x a && lacks x b.
Proof.
  induction a as [|c a IH]; simpl; [reflexivity|].
  rewrite IH, andb_assoc. reflexivity.
Qed.

Lemma braceFree_no_open s :
  braceFree s = true -> JsString.includes "{{" s = false.
Proof.
  unfold braceFree. induction s as [|c t IH]; [reflexivity|].
  cbn [lacks]. intros H. apply andb_true_iff in H. destruct H as [Hc Ht].
  apply negb_true_iff in Hc.
  rewrite includes_cons, (startsWith_open_other c t Hc). exact (IH Ht).
Qed.

Section Scan.

Variable matchAt : string -> option string.
Variable replaceValue : string.
Hypothesis Hopen : onlyAtOpen matchAt.

Lemma matchAt_none s : JsString.startsWith "{{" s = false -> matchAt s = None.
Proof.
  intros H. destruct (matchAt s) as [m|] eqn:E; [|reflexivity].
  apply Hopen in E. congruence.
Qed.

(** Where no [{{] occurs nothing is replaced. *)
Lemma replaceAllFrom_no_open s : forall before,
  JsString.includes "{{" s = false ->
  JsString.replaceAllFrom matchAt replaceValue before 0 s = s.
Proof.
  induction s as [|c t IH]; intros before H; [reflexivity|].
  rewrite includes_cons in H. apply orb_false_iff in H. destruct H as [H0 Ht].
  cbn [JsString.replaceAllFrom]. rewrite (matchAt_none _ H0).
  f_equal. apply IH. exact Ht.
Qed.

(** A stretch without opening braces is passed over. *)
Lemma replaceAllFrom_free pre : forall before rest,
  braceFree pre = true ->
  JsString.replaceAllFrom matchAt replaceValue before 0 (pre ++ rest)
  = pre ++ JsString.replaceAllFrom matchAt replaceValue (before ++ pre) 0 rest.
Proof.
  unfold braceFree.
  induction pre as [|c pre IH]; intros before rest H.
  - simpl. rewrite append_empty_r. reflexivity.
  - cbn [lacks] in H. apply andb_true_iff in H. destruct H as [Hc Hpre].
    apply negb_true_iff in Hc.
    change (String c pre ++ rest) with (String c (pre ++ rest)).
    cbn [JsString.replaceAllFrom].
    rewrite (matchAt_none _ (startsWith_open_other c _ Hc)).
    rewrite (IH _ rest Hpre), append_assoc. reflexivity.
Qed.

(** The characters of a match are passed over. *)
Lemma replaceAllFrom_skip x : forall before rest,
  JsString.replaceAllFrom matchAt replaceValue before (String.length x) (x ++ rest)
  = JsString.replaceAllFrom matchAt replaceValue (before ++ x) 0 rest.
Proof.
  induction x as [|c x IH]; intros before rest.
  - simpl. rewrite append_empty_r. reflexivity.
  - change (String c x ++ rest) with (String c (x ++ rest)).
    cbn [String.length JsString.replaceAllFrom].
    rewrite IH, append_assoc. reflexivity.
Qed.

(** A match gives way to the replacement, and the scan goes on after it. *)
Lemma replaceAllFrom_match m before rest :
  m <> "" ->
  matchAt (m ++ rest) = Some m ->
  JsString.replaceAllFrom matchAt replaceValue before 0 (m ++ rest)
  = JsString.GetSubstitution m before rest replaceValue
    ++ JsString.replaceAllFrom matchAt replaceValue (before ++ m) 0 rest.
Proof.
  intros Hm Hmatch. destruct m as [|c t]; [congruence|].
  change (String c t ++ rest) with (String c (t ++ rest)) in *.
  cbn [JsString.replaceAllFrom]. rewrite Hmatch.
  change (String c (t ++ rest)) with (String c t ++ rest).
  rewrite stripPrefix_append.
  change (String c t ++ rest) with (String c (t ++ rest)).
  cbn [String.length].
  replace (S (String.length t) - 1) with (String.length t) by lia.
  rewrite replaceAllFrom_skip, append_assoc. reflexivity.
Qed.

End Scan.

(** ** The locale pass *)

Lemma regexLiteral_lacks x key :
  isRegexSyntax x = true -> regexLiteral key = true -> lacks x key = true.
Proof.
  intros Hx. induction key as [|c t IH]; [reflexivity|].
  cbn [regexLiteral lacks]. intros H.
  apply andb_true_iff in H. destruct H as [Hc Ht].
  rewrite (IH Ht), andb_true_r.
  destruct (Ascii.eqb_spec c x) as [E|NE]; [|reflexivity].
  subst c. rewrite Hx in Hc. discriminate.
Qed.

Lemma plainKey_facts key :
  plainKey key = true ->
  lacks "{" key = true /\ lacks "}" key = true
  /\ JsString.startsWith " " key = false.
Proof.
  unfold plainKey. intros H. apply andb_true_iff in H. destruct H as [Hl Hs].
  apply negb_true_iff in Hs.
  split; [apply regexLiteral_lacks; [reflexivity | exact Hl]|].
  split; [apply regexLiteral_lacks; [reflexivity | exact Hl] | exact Hs].
Qed.

Lemma translateRegex_open key : onlyAtOpen (translateRegex key).
Proof.
  intros s m H. unfold translateRegex in H.
  destruct (JsString.stripPrefix "{{translate:" s) as [r|] eqn:E; [|discriminate].
  apply stripPrefix_sound in E. subst s. reflexivity.
Qed.

Lemma localeNameRegex_open : onlyAtOpen localeNameRegex.
Proof.
  intros s m H. unfold localeNameRegex, JsString.startsWith in H.
  destruct (JsString.stripPrefix "{{localeName}}" s) as [r|] eqn:E; [|discriminate].
  apply stripPrefix_sound in E. subst s. reflexivity.
Qed.

Lemma startsWith_append p r : JsString.startsWith p (p ++ r) = true.
Proof. unfold JsString.startsWith. rewrite stripPrefix_append. reflexivity. Qed.

Lemma marker_append withSpace key post :
  translateMarker withSpace key ++ post
  = "{{translate:" ++ ((if withSpace then " " else "") ++ key ++ "}}" ++ post).
Proof. unfold translateMarker. rewrite !append_assoc. reflexivity. Qed.

Lemma translateRegex_at_marker key body :
  translateRegex key ("{{translate:" ++ body)
  = if JsString.startsWith (" " ++ key ++ "}}") body
    then Some ("{{translate: " ++ key ++ "}}")
    else if JsString.startsWith (key ++ "}}") body
         then Some ("{{translate:" ++ key ++ "}}")
         else None.
Proof. unfold translateRegex. rewrite stripPrefix_append. reflexivity. Qed.

(** Two keys without closing braces that are followed by [}}] at the same
    place are the same key. *)
Lemma key_then_close_eq key' : forall key post,
  lacks "}" key' = true -> lacks "}" key = true ->
  JsString.startsWith (key' ++ "}}") (key ++ "}}" ++ post) = true ->
  key' = key.
Proof.
  unfold JsString.startsWith.
  induction key' as [|a k' IH]; intros key post H' H Hs.
  - destruct key as [|c k]; [reflexivity|]. exfalso.
    cbn [lacks] in H. apply andb_true_iff in H. destruct H as [Hc _].
    apply negb_true_iff in Hc. rewrite Ascii.eqb_sym in Hc.
    change ("" ++ "}}") with "}}" in Hs.
    change (String c k ++ "}}" ++ post) with (String c (k ++ "}}" ++ post)) in Hs.
    cbn [JsString.stripPrefix] in Hs. rewrite Hc in Hs. discriminate.
  - cbn [lacks] in H'. apply andb_true_iff in H'. destruct H' as [Ha Hk'].
    apply negb_true_iff in Ha.
    change (String a k' ++ "}}") with (String a (k' ++ "}}")) in Hs.
    destruct key as [|c k].
    + exfalso. change ("" ++ "}}" ++ post) with (String "}" (String "}" post)) in Hs.
      cbn [JsString.stripPrefix] in Hs. rewrite Ha in Hs. discriminate.
    + cbn [lacks] in H. apply andb_true_iff in H. destruct H as [_ Hk].
      change (String c k ++ "}}" ++ post) with (String c (k ++ "}}" ++ post)) in Hs.
      cbn [JsString.stripPrefix] in Hs.
      destruct (Ascii.eqb_spec a c) as [E|NE]; [|discriminate].
      subst c. f_equal. exact (IH k post Hk' Hk Hs).
Qed.

Lemma space_then_key_false key' key post :
  JsString.startsWith " " key = false ->
  JsString.startsWith (" " ++ key' ++ "}}") (key ++ "}}" ++ post) = false.
Proof.
  unfold JsString.startsWith. intros H.
  change (" " ++ key' ++ "}}") with (String " " (key' ++ "}}")).
  destruct key as [|c k].
  - reflexivity.
  - change (String c k ++ "}}" ++ post) with (String c (k ++ "}}" ++ post)).
    cbn [JsString.stripPrefix] in *.
    destruct (Ascii.eqb " " c); [discriminate | reflexivity].
Qed.

Lemma key_then_space_false key' key post :
  lacks "}" key' = true ->
  JsString.startsWith " " key' = false ->
  JsString.startsWith (key' ++ "}}") (" " ++ key ++ "}}" ++ post) = false.
Proof.
  unfold JsString.startsWith. intros Hl H.
  change (" " ++ key ++ "}}" ++ post) with (String " " (key ++ "}}" ++ post)).
  destruct key' as [|a k'].
  - reflexivity.
  - change (String a k' ++ "}}") with (String a (k' ++ "}}")).
    cbn [JsString.stripPrefix] in *. rewrite Ascii.eqb_sym.
    destruct (Ascii.eqb " " a); [discriminate | reflexivity].
Qed.

Lemma space_key_then_space_eq key' key post :
  lacks "}" key' = true -> lacks "}" key = true ->
  JsString.startsWith (" " ++ key' ++ "}}") (" " ++ key ++ "}}" ++ post) = true ->
  key' = key.
Proof.
  intros H' H Hs. apply (key_then_close_eq key' key post H' H).
  unfold JsString.startsWith in *.
  change (" " ++ key' ++ "}}") with (String " " (key' ++ "}}")) in Hs.
  change (" " ++ key ++ "}}" ++ post) with (String " " (key ++ "}}" ++ post)) in Hs.
  cbn [JsString.stripPrefix] in Hs. rewrite Ascii.eqb_refl in Hs. exact Hs.
Qed.

Section MarkerAtStart.

Variables (withSpace : bool) (key post : string).
Hypothesis Hkey : plainKey key = true.

(** The key's own expression matches its marker, in either spelling. *)
Lemma translateRegex_matches_marker :
  translateRegex key (translateMarker withSpace key ++ post)
  = Some (translateMarker withSpace key).
Proof.
  destruct (plainKey_facts key Hkey) as (_ & Hc & Hs).
  rewrite marker_append, translateRegex_at_marker.
  unfold translateMarker. destruct withSpace.
  - change (" " ++ key ++ "}}" ++ post) with (String " " (key ++ "}}" ++ post)).
    change (" " ++ key ++ "}}") with (String " " (key ++ "}}")).
    replace (JsString.startsWith (String " " (key ++ "}}")) (String " " (key ++ "}}" ++ post)))
      with true; [reflexivity|].
    symmetry. rewrite <- (append_assoc key "}}" post).
    apply (startsWith_append (String " " (key ++ "}}")) post).
  - change ("" ++ key ++ "}}" ++ post) with (key ++ "}}" ++ post).
    rewrite (space_then_key_false key key post Hs).
    rewrite <- (append_assoc key "}}" post), startsWith_append. reflexivity.
Qed.

End MarkerAtStart.

(** ** Texts in which a pattern does not occur *)

Section Absent.

Variable pat : string.
Variable matchAt : string -> option string.
Variable replaceValue : string.
Hypothesis Hat : forall s m, matchAt s = Some m -> JsString.startsWith pat s = true.

(** An expression whose matches all start with [pat] replaces nothing in
    a text where [pat] does not occur. *)
Lemma replaceAllFrom_absent s : forall before,
  JsString.includes pat s = false ->
  JsString.replaceAllFrom matchAt replaceValue before 0 s = s.
Proof.
  induction s as [|c t IH]; intros before H; [reflexivity|].
  rewrite includes_cons in H. apply orb_false_iff in H. destruct H as [H0 Ht].
  cbn [JsString.replaceAllFrom].
  destruct (matchAt (String c t)) as [m|] eqn:E.
  - apply Hat in E. congruence.
  - f_equal. apply IH. exact Ht.
Qed.

End Absent.

Lemma translateRegex_at key s m :
  translateRegex key s = Some m -> JsString.startsWith "{{translate:" s = true.
Proof.
  unfold translateRegex, JsString.startsWith.
  destruct (JsString.stripPrefix "{{translate:" s); [reflexivity | discriminate].
Qed.

Lemma localeNameRegex_at s m :
  localeNameRegex s = Some m -> JsString.startsWith "{{localeName}}" s = true.
Proof.
  unfold localeNameRegex. destruct (JsString.startsWith "{{localeName}}" s);
    [reflexivity | discriminate].
Qed.

(** ** A marker in a text with braces of its own *)







Section ScanAcross.

Variables (a : ascii) (q : string).
Variable matchAt : string -> option string.
Variable replaceValue : string.
Hypothesis Hq : lacks "{" (String a q) = true.
Hypothesis Hat :
  forall s m, matchAt s = Some m ->
              JsString.startsWith (String "{" (String "{" (String a q))) s = true.

Lemma matchAt_onlyAtOpen : onlyAtOpen matchAt.
Proof.
  intros s m H. apply Hat in H. unfold JsString.startsWith in *.
  destruct s as [|c s]; [discriminate|]. cbn [JsString.stripPrefix] in *.
  destruct (Ascii.eqb "{" c); [|discriminate].
  destruct s as [|d s]; [discriminate|]. cbn [JsString.stripPrefix] in *.
  destruct (Ascii.eqb "{" d); [reflexivity | discriminate].
Qed.


End ScanAcross.

Section MarkerInAnyText.

Variables (withSpace : bool) (key pre post : string).
Hypothesis Hkey : plainKey key = true.
Hypothesis Hpre : JsString.includes "{{translate:" pre = false.
Hypothesis Hpost : JsString.includes "{{translate:" post = false.

Let inner : string := (if withSpace then " " else "") ++ key ++ "}}".






End MarkerInAnyText.


(** The default locale fills the gap for a key the active locale lacks. *)
Example default_fills_gap :
  Locale.lookup "bye" (activeLocale sampleGlobals) = None
  /\ localize sampleGlobals "<p>{{translate:bye}}</p>" = "<p>Goodbye</p>".
Proof. split; vm_compute; reflexivity. Qed.


(** ** Texts with several markers *)

Lemma plainPath_facts p :
  plainPath p = true ->
  p <> "" /\ lacks "{" p = true /\ lacks "}" p = true /\ singleLine p = true.
Proof.
  unfold plainPath. intros H.
  apply andb_true_iff in H. destruct H as [H H4].
  apply andb_true_iff in H. destruct H as [H H3].
  apply andb_true_iff in H. destruct H as [H1 H2].
  apply negb_true_iff in H1. apply String.eqb_neq in H1.
  repeat split; assumption.
Qed.

(** A marker is two opening braces and then a text without any, which is
    not empty. *)
Lemma marker_inner pc :
  pieceOk pc = true -> isMarker pc = true ->
  exists c inner,
    pieceText pc = String "{" (String "{" (String c inner))
    /\ braceFree (String c inner) = true.
Proof.
  destruct pc as [|withSpace key|p|text]; simpl; intros Hok Hm.
  - exists "l"%char, "ocaleName}}". split; reflexivity.
  - exists "t"%char, ("ranslate:" ++ (if withSpace then " " else "") ++ key ++ "}}").
    split; [reflexivity|].
    destruct (plainKey_facts key Hok) as (Hk & _ & _).
    change (String "t" ("ranslate:" ++ (if withSpace then " " else "") ++ key ++ "}}"))
      with ("translate:" ++ (if withSpace then " " else "") ++ key ++ "}}").
    unfold braceFree. rewrite !lacks_app, Hk. destruct withSpace; reflexivity.
  - exists "p"%char, ("ackage.json:" ++ p ++ "}}"). split; [reflexivity|].
    destruct (plainPath_facts p Hok) as (_ & Hp & _ & _).
    change (String "p" ("ackage.json:" ++ p ++ "}}")) with ("package.json:" ++ p ++ "}}").
    unfold braceFree. rewrite !lacks_app, Hp. reflexivity.
  - discriminate.
Qed.

Lemma itemsOk_cons pre pc rest :
  itemsOk ((pre, pc) :: rest) = true ->
  braceFree pre = true /\ pieceOk pc = true /\ itemsOk rest = true.
Proof.
  unfold itemsOk. cbn [forallb fst snd]. intros H.
  apply andb_true_iff in H. destruct H as [H Hrest].
  apply andb_true_iff in H. destruct H as [Hpre Hpc].
  repeat split; assumption.
Qed.

Section Pass.

Variable matchAt : string -> option string.
Variable replaceValue : string.
Variable hits : piece -> bool.
Hypothesis Hopen : onlyAtOpen matchAt.
Hypothesis Hplain : plainText replaceValue = true.
Hypothesis Hhit : forall pc rest,
    pieceOk pc = true -> hits pc = true ->
    pieceText pc <> "" /\ matchAt (pieceText pc ++ rest) = Some (pieceText pc).
Hypothesis Hmiss : forall pc rest,
    pieceOk pc = true -> hits pc = false -> isMarker pc = true ->
    matchAt (pieceText pc ++ rest) = None.

Lemma replaceAllFrom_marker_miss c inner before rest :
  braceFree (String c inner) = true ->
  matchAt (String "{" (String "{" (String c inner)) ++ rest) = None ->
  JsString.replaceAllFrom matchAt replaceValue before 0
    (String "{" (String "{" (String c inner)) ++ rest)
  = String "{" (String "{" (String c inner))
    ++ JsString.replaceAllFrom matchAt replaceValue
         (before ++ String "{" (String "{" (String c inner))) 0 rest.
Proof.
  intros Hfree Hnone.
  change (String "{" (String "{" (String c inner)) ++ rest)
    with (String "{" (String "{" (String c inner ++ rest))) in *.
  cbn [JsString.replaceAllFrom]. rewrite Hnone.
  assert (Hc : Ascii.eqb "{" c = false).
  { unfold braceFree in Hfree. cbn [lacks] in Hfree.
    apply andb_true_iff in Hfree. destruct Hfree as [Hc _].
    apply negb_true_iff in Hc. rewrite Ascii.eqb_sym. exact Hc. }
  rewrite (matchAt_none matchAt Hopen (String "{" (String c inner ++ rest))).
  2:{ change (String c inner ++ rest) with (String c (inner ++ rest)).
      rewrite startsWith_open_two, Hc. apply andb_false_r. }
  rewrite (replaceAllFrom_free matchAt replaceValue Hopen (String c inner) _ rest Hfree).
  rewrite !append_assoc. reflexivity.
Qed.

Lemma passPiece_ok pc : pieceOk pc = true -> pieceOk (passPiece hits replaceValue pc) = true.
Proof.
  intros H. unfold passPiece. destruct (hits pc); [|exact H].
  simpl. unfold plainText in Hplain. apply andb_true_iff in Hplain. tauto.
Qed.

Lemma itemsOk_pass items :
  itemsOk items = true -> itemsOk (mapPieces (passPiece hits replaceValue) items) = true.
Proof.
  induction items as [|[pre pc] rest IH]; [reflexivity|].
  intros H. destruct (itemsOk_cons pre pc rest H) as (Hpre & Hpc & Hrest).
  unfold itemsOk, mapPieces in *. cbn [map forallb fst snd].
  rewrite Hpre, (passPiece_ok pc Hpc). simpl. exact (IH Hrest).
Qed.

(** One pass over a text: the pieces the expression matches give way to
    the replacement, everything else stays. *)
Lemma replaceAllFrom_render items last : forall before,
  itemsOk items = true -> braceFree last = true ->
  JsString.replaceAllFrom matchAt replaceValue before 0 (render items last)
  = render (mapPieces (passPiece hits replaceValue) items) last.
Proof.
  unfold plainText in Hplain. apply andb_true_iff in Hplain.
  destruct Hplain as [Hvfree Hvplain].
  induction items as [|[pre pc] rest IH]; intros before Hok Hlast.
  - cbn [render mapPieces map].
    apply replaceAllFrom_no_open; [exact Hopen | apply braceFree_no_open; exact Hlast].
  - destruct (itemsOk_cons pre pc rest Hok) as (Hpre & Hpc & Hrest).
    cbn [render mapPieces map fst snd].
    rewrite (replaceAllFrom_free matchAt replaceValue Hopen pre _ _ Hpre).
    f_equal. unfold passPiece.
    destruct (hits pc) eqn:Hh.
    + destruct (Hhit pc (render rest last) Hpc Hh) as [Hne Hm].
      rewrite (replaceAllFrom_match matchAt replaceValue (pieceText pc) _ _ Hne Hm).
      rewrite GetSubstitution_plain by exact Hvplain.
      cbn [pieceText]. f_equal. apply IH; assumption.
    + destruct (isMarker pc) eqn:Hmk.
      * destruct (marker_inner pc Hpc Hmk) as (c & inner & Htext & Hfree).
        specialize (Hmiss pc (render rest last) Hpc Hh Hmk).
        rewrite Htext in *.
        rewrite (replaceAllFrom_marker_miss c inner _ _ Hfree Hmiss).
        f_equal. apply IH; assumption.
      * destruct pc; try discriminate. cbn [pieceText pieceOk] in *.
        rewrite (replaceAllFrom_free matchAt replaceValue Hopen text _ _ Hpc).
        f_equal. apply IH; assumption.
Qed.

End Pass.

(** ** The locale pass over a whole text *)

Lemma localeNameRegex_hit pc rest :
  isLocaleName pc = true ->
  pieceText pc <> "" /\ localeNameRegex (pieceText pc ++ rest) = Some (pieceText pc).
Proof.
  destruct pc; try discriminate. intros _. split; [discriminate|].
  unfold localeNameRegex. cbn [pieceText]. rewrite startsWith_append. reflexivity.
Qed.

Lemma localeNameRegex_miss pc rest :
  isLocaleName pc = false -> isMarker pc = true ->
  localeNameRegex (pieceText pc ++ rest) = None.
Proof.
  destruct pc as [|withSpace key|p|text]; try discriminate; intros _ _; reflexivity.
Qed.

Lemma translateRegex_other_key k withSpace key rest :
  plainKey k = true -> plainKey key = true -> k <> key ->
  translateRegex k (translateMarker withSpace key ++ rest) = None.
Proof.
  intros Hk Hkey Hne.
  destruct (plainKey_facts key Hkey) as (_ & Hc & Hs).
  destruct (plainKey_facts k Hk) as (_ & Hc' & Hs').
  rewrite marker_append, translateRegex_at_marker.
  destruct withSpace.
  - destruct (JsString.startsWith (" " ++ k ++ "}}") (" " ++ key ++ "}}" ++ rest)) eqn:E1.
    + exfalso. apply Hne. exact (space_key_then_space_eq k key rest Hc' Hc E1).
    + rewrite (key_then_space_false k key rest Hc' Hs'). reflexivity.
  - change ("" ++ key ++ "}}" ++ rest) with (key ++ "}}" ++ rest).
    rewrite (space_then_key_false k key rest Hs).
    destruct (JsString.startsWith (k ++ "}}") (key ++ "}}" ++ rest)) eqn:E2;
      [|reflexivity].
    exfalso. apply Hne. exact (key_then_close_eq k key rest Hc' Hc E2).
Qed.

Lemma translateRegex_hit k pc rest :
  plainKey k = true -> isTranslateOf k pc = true ->
  pieceText pc <> "" /\ translateRegex k (pieceText pc ++ rest) = Some (pieceText pc).
Proof.
  intros Hk. destruct pc as [|withSpace key|p|text]; try discriminate.
  cbn [isTranslateOf pieceText]. intros E. apply String.eqb_eq in E. subst key.
  split; [unfold translateMarker; discriminate|].
  apply translateRegex_matches_marker. exact Hk.
Qed.

Lemma translateRegex_miss k pc rest :
  plainKey k = true -> pieceOk pc = true ->
  isTranslateOf k pc = false -> isMarker pc = true ->
  translateRegex k (pieceText pc ++ rest) = None.
Proof.
  intros Hk. destruct pc as [|withSpace key|p|text]; try discriminate.
  - intros _ _ _. reflexivity.
  - cbn [pieceOk isTranslateOf pieceText]. intros Hkey E _.
    apply String.eqb_neq in E.
    apply translateRegex_other_key; [exact Hk | exact Hkey | congruence].
  - intros _ _ _. reflexivity.
Qed.

Lemma mapPieces_compose f g items :
  mapPieces g (mapPieces f items) = mapPieces (fun pc => g (f pc)) items.
Proof.
  unfold mapPieces. rewrite map_map. reflexivity.
Qed.

Lemma mapPieces_ext f g items :
  (forall pc, f pc = g pc) -> mapPieces f items = mapPieces g items.
Proof.
  intros H. unfold mapPieces. apply map_ext. intros [pre pc]. cbn. rewrite H. reflexivity.
Qed.

Section LocalePass.

Variable G : Globals.

Let T : localeMapping := Locale.spread (english G) (activeLocale G).

(** One key after the other, as [forEach] goes through them. *)
Lemma translate_passes keys last : forall items,
  (forall k, In k keys -> plainKey k = true /\ plainText (translationOf G k) = true) ->
  itemsOk items = true -> braceFree last = true ->
  fold_left
    (fun result key =>
       JsString.replaceAll (translateRegex key)
         (match Locale.lookup key T with Some v => v | None => "undefined" end)
         result)
    keys (render items last)
  = render
      (mapPieces
         (fun pc =>
            fold_left (fun pc k => passPiece (isTranslateOf k) (translationOf G k) pc)
              keys pc)
         items)
      last.
Proof.
  induction keys as [|k rest IH]; intros items Hkeys Hok Hlast.
  - cbn [fold_left]. f_equal. unfold mapPieces.
    rewrite <- (map_id items) at 1. apply map_ext. intros [pre pc]. reflexivity.
  - cbn [fold_left].
    destruct (Hkeys k (or_introl eq_refl)) as [Hk Hv].
    unfold JsString.replaceAll at 2.
    change (match Locale.lookup k T with Some v => v | None => "undefined" end)
      with (translationOf G k).
    rewrite (replaceAllFrom_render (translateRegex k) (translationOf G k)
               (isTranslateOf k) (translateRegex_open k) Hv
               (fun pc r _ Hh => translateRegex_hit k pc r Hk Hh)
               (fun pc r Hpc Hh Hm => translateRegex_miss k pc r Hk Hpc Hh Hm)
               items last "" Hok Hlast).
    rewrite IH.
    + rewrite mapPieces_compose. reflexivity.
    + intros k' Hk'. apply Hkeys. right. exact Hk'.
    + apply itemsOk_pass; [exact Hv | exact Hok].
    + exact Hlast.
Qed.

Lemma passes_keep_plain keys text :
  fold_left (fun pc k => passPiece (isTranslateOf k) (translationOf G k) pc)
    keys (Plain text)
  = Plain text.
Proof. induction keys as [|k rest IH]; [reflexivity | exact IH]. Qed.

Lemma passes_keep_package keys p :
  fold_left (fun pc k => passPiece (isTranslateOf k) (translationOf G k) pc)
    keys (PackageMarker p)
  = PackageMarker p.
Proof. induction keys as [|k rest IH]; [reflexivity | exact IH]. Qed.

Lemma passes_on_translate keys withSpace key :
  fold_left (fun pc k => passPiece (isTranslateOf k) (translationOf G k) pc)
    keys (TranslateMarker withSpace key)
  = if existsb (String.eqb key) keys
    then Plain (translationOf G key)
    else TranslateMarker withSpace key.
Proof.
  induction keys as [|k rest IH]; [reflexivity|].
  cbn [fold_left existsb]. unfold passPiece at 2. cbn [isTranslateOf].
  destruct (String.eqb_spec key k) as [E|NE].
  - subst k. cbn [orb]. apply passes_keep_plain.
  - cbn [orb]. exact IH.
Qed.

Lemma existsb_keys key :
  existsb (String.eqb key) (Locale.keys T)
  = match Locale.lookup key T with Some _ => true | None => false end.
Proof.
  unfold Locale.keys. induction T as [|[k v] rest IH]; [reflexivity|].
  cbn [map fst existsb Locale.lookup].
  destruct (String.eqb key k); [reflexivity | exact IH].
Qed.

Lemma passes_are_localizePiece pc :
  fold_left (fun pc k => passPiece (isTranslateOf k) (translationOf G k) pc)
    (Locale.keys T) (passPiece isLocaleName (localeName G) pc)
  = localizePiece G pc.
Proof.
  destruct pc as [|withSpace key|p|text]; unfold passPiece at 2; cbn [isLocaleName].
  - apply passes_keep_plain.
  - rewrite passes_on_translate, existsb_keys. cbn [localizePiece].
    unfold translationOf. fold T. destruct (Locale.lookup key T); reflexivity.
  - apply passes_keep_package.
  - apply passes_keep_plain.
Qed.

End LocalePass.

Lemma localeOk_facts G :
  localeOk G = true ->
  plainText (localeName G) = true
  /\ forall k, In k (Locale.keys (Locale.spread (english G) (activeLocale G))) ->
       plainKey k = true /\ plainText (translationOf G k) = true.
Proof.
  unfold localeOk, translationOf. intros H.
  apply andb_true_iff in H. destruct H as [Hname Hall].
  split; [exact Hname|].
  generalize dependent (Locale.spread (english G) (activeLocale G)).
  intros T Hall k Hin. rewrite forallb_forall in Hall.
  destruct (Locale.lookup k T) as [v|] eqn:E.
  - assert (Hkv : In (k, v) T).
    { clear - E. induction T as [|[k0 v0] rest IH]; [discriminate|].
      simpl in E. destruct (String.eqb_spec k k0).
      - inversion E; subst. left. reflexivity.
      - right. apply IH. exact E. }
    specialize (Hall (k, v) Hkv). cbn [fst snd] in Hall.
    apply andb_true_iff in Hall. exact Hall.
  - exfalso. unfold Locale.keys in Hin.
    clear - E Hin. induction T as [|[k0 v0] rest IH]; [contradiction|].
    simpl in E. destruct (String.eqb_spec k k0); [discriminate|].
    destruct Hin as [Hk|Hin]; [cbn in Hk; congruence | exact (IH Hin E)].
Qed.

(** The locale pass over a rendered text, piece by piece. *)
Lemma localize_render (G : Globals) (items : list (string * piece)) (last : string) :
  localeOk G = true ->
  itemsOk items = true ->
  braceFree last = true ->
  localize G (render items last) = render (mapPieces (localizePiece G) items) last.
Proof.
  intros HG Hok Hlast.
  destruct (localeOk_facts G HG) as [Hname Hkeys].
  unfold localize. cbv zeta.
  change (JsString.replaceAll localeNameRegex (localeName G) (render items last))
    with (JsString.replaceAllFrom localeNameRegex (localeName G) "" 0 (render items last)).
  rewrite (replaceAllFrom_render localeNameRegex (localeName G) isLocaleName
             localeNameRegex_open Hname
             (fun pc r _ Hh => localeNameRegex_hit pc r Hh)
             (fun pc r _ Hh Hm => localeNameRegex_miss pc r Hh Hm)
             items last "" Hok Hlast).
  rewrite (translate_passes G _ last _ Hkeys
             (itemsOk_pass (localeName G) isLocaleName Hname items Hok) Hlast).
  rewrite mapPieces_compose. f_equal.
  apply mapPieces_ext. intros pc. apply passes_are_localizePiece.
Qed.

(** ** The metadata pass over a whole text *)

Lemma packageJsonRegex_open s x :
  packageJsonRegex s = Some x -> JsString.startsWith "{{" s = true.
Proof.
  unfold packageJsonRegex.
  destruct (JsString.stripPrefix "{{package.json:" s) as [r|] eqn:E; [|discriminate].
  intros _. apply stripPrefix_sound in E. subst s. reflexivity.
Qed.

Lemma packageJsonRegex_none s :
  JsString.startsWith "{{" s = false -> packageJsonRegex s = None.
Proof.
  intros H. destruct (packageJsonRegex s) as [x|] eqn:E; [|reflexivity].
  apply packageJsonRegex_open in E. congruence.
Qed.

(** The scan finds nothing in a stretch without opening braces, whether it
    passes over its start or not. *)
Lemma matchAllFrom_free t : forall n rest,
  braceFree t = true -> n <= String.length t ->
  JsString.matchAllFrom packageJsonRegex n (t ++ rest)
  = JsString.matchAllFrom packageJsonRegex 0 rest.
Proof.
  unfold braceFree.
  induction t as [|c t IH]; intros n rest Hfree Hn.
  - simpl in Hn. replace n with 0 by lia. reflexivity.
  - cbn [lacks] in Hfree. apply andb_true_iff in Hfree. destruct Hfree as [Hc Ht].
    apply negb_true_iff in Hc.
    change (String c t ++ rest) with (String c (t ++ rest)).
    cbn [JsString.matchAllFrom]. destruct n as [|k].
    + rewrite (packageJsonRegex_none _ (startsWith_open_other c _ Hc)).
      apply IH; [exact Ht | lia].
    + apply IH; [exact Ht | simpl in Hn; lia].
Qed.

Lemma lazyDotPlus_path p : forall c rest,
  lacks "}" (String c p) = true -> singleLine (String c p) = true ->
  lazyDotPlus (String c p ++ "}}" ++ rest) = Some (String c p).
Proof.
  induction p as [|d p IH]; intros c rest Hclose Hline.
  - cbn [singleLine] in Hline. apply andb_true_iff in Hline. destruct Hline as [Hc _].
    apply negb_true_iff in Hc.
    change (String c "" ++ "}}" ++ rest) with (String c ("}}" ++ rest)).
    cbn [lazyDotPlus]. rewrite Hc, startsWith_append. reflexivity.
  - cbn [singleLine] in Hline. apply andb_true_iff in Hline. destruct Hline as [Hc Hline].
    apply negb_true_iff in Hc.
    cbn [lacks] in Hclose. apply andb_true_iff in Hclose. destruct Hclose as [_ Hclose].
    change (String c (String d p) ++ "}}" ++ rest)
      with (String c (String d p ++ "}}" ++ rest)).
    cbn [lazyDotPlus]. rewrite Hc.
    replace (JsString.startsWith "}}" (String d p ++ "}}" ++ rest)) with false.
    + rewrite (IH d rest Hclose Hline). reflexivity.
    + symmetry. cbn [lacks] in Hclose. apply andb_true_iff in Hclose.
      destruct Hclose as [Hd _]. apply negb_true_iff in Hd.
      change (String d p ++ "}}" ++ rest) with (String d (p ++ "}}" ++ rest)).
      unfold JsString.startsWith. cbn [JsString.stripPrefix].
      rewrite Ascii.eqb_sym, Hd. reflexivity.
Qed.

Lemma packageJsonRegex_marker p rest :
  plainPath p = true ->
  packageJsonRegex (("{{package.json:" ++ p ++ "}}") ++ rest)
  = Some ("package.json:" ++ p, 13 + String.length p).
Proof.
  intros Hp. destruct (plainPath_facts p Hp) as (Hne & _ & Hclose & Hline).
  unfold packageJsonRegex.
  rewrite append_assoc, stripPrefix_append, append_assoc.
  destruct p as [|c p]; [congruence|].
  rewrite (lazyDotPlus_path p c rest Hclose Hline).
  rewrite append_length. reflexivity.
Qed.

Lemma matchAllFrom_scan matchAt c t :
  JsString.matchAllFrom matchAt 0 (String c t)
  = match matchAt (String c t) with
    | Some (m, advance) => m :: JsString.matchAllFrom matchAt (advance - 1) t
    | None => JsString.matchAllFrom matchAt 0 t
    end.
Proof. reflexivity. Qed.

Lemma matchAllFrom_skip matchAt k c t :
  JsString.matchAllFrom matchAt (S k) (String c t) = JsString.matchAllFrom matchAt k t.
Proof. reflexivity. Qed.

Lemma package_marker_cons p rest :
  ("{{package.json:" ++ p ++ "}}") ++ rest
  = String "{" (String "{" (("package.json:" ++ p ++ "}}") ++ rest)).
Proof. reflexivity. Qed.

(** The scan over a package marker: one match, and on to what follows. *)
Lemma matchAllFrom_marker p rest :
  plainPath p = true ->
  JsString.matchAllFrom packageJsonRegex 0 (("{{package.json:" ++ p ++ "}}") ++ rest)
  = ("package.json:" ++ p) :: JsString.matchAllFrom packageJsonRegex 0 rest.
Proof.
  intros Hp. pose proof (packageJsonRegex_marker p rest Hp) as Hm.
  destruct (plainPath_facts p Hp) as (_ & Hopen & _ & _).
  rewrite package_marker_cons in *.
  rewrite matchAllFrom_scan, Hm. f_equal.
  replace (13 + String.length p - 1) with (S (11 + String.length p)) by lia.
  rewrite matchAllFrom_skip.
  apply (matchAllFrom_free ("package.json:" ++ p ++ "}}") (11 + String.length p) rest).
  - unfold braceFree. rewrite !lacks_app, Hopen. reflexivity.
  - rewrite !append_length.
    change (String.length "package.json:") with 13.
    change (String.length "}}") with 2. lia.
Qed.

(** The scan over a marker of another kind: nothing. *)
Lemma matchAllFrom_other_marker c inner rest :
  braceFree (String c inner) = true ->
  packageJsonRegex (String "{" (String "{" (String c inner)) ++ rest) = None ->
  JsString.matchAllFrom packageJsonRegex 0
    (String "{" (String "{" (String c inner)) ++ rest)
  = JsString.matchAllFrom packageJsonRegex 0 rest.
Proof.
  intros Hfree Hnone.
  change (String "{" (String "{" (String c inner)) ++ rest)
    with (String "{" (String "{" (String c inner ++ rest))) in *.
  cbn [JsString.matchAllFrom]. rewrite Hnone.
  assert (Hc : Ascii.eqb "{" c = false).
  { unfold braceFree in Hfree. cbn [lacks] in Hfree.
    apply andb_true_iff in Hfree. destruct Hfree as [Hc _].
    apply negb_true_iff in Hc. rewrite Ascii.eqb_sym. exact Hc. }
  rewrite (packageJsonRegex_none (String "{" (String c inner ++ rest))).
  2:{ change (String c inner ++ rest) with (String c (inner ++ rest)).
      rewrite startsWith_open_two, Hc. apply andb_false_r. }
  apply matchAllFrom_free; [exact Hfree | lia].
Qed.

Lemma packageJsonRegex_other pc rest :
  isMarker pc = true -> isPackage pc = false ->
  packageJsonRegex (pieceText pc ++ rest) = None.
Proof.
  destruct pc as [|withSpace key|p|text]; try discriminate; intros _ _.
  - reflexivity.
  - cbn [pieceText]. rewrite marker_append. reflexivity.
Qed.

Lemma packageMatches_render items last :
  itemsOk items = true -> braceFree last = true ->
  packageMatches (render items last) = packageMatchesOf items.
Proof.
  unfold packageMatches. intros Hok Hlast.
  induction items as [|[pre pc] rest IH].
  - cbn [render packageMatchesOf].
    rewrite <- (append_empty_r last).
    rewrite (matchAllFrom_free last 0 "" Hlast); [reflexivity | lia].
  - destruct (itemsOk_cons pre pc rest Hok) as (Hpre & Hpc & Hrest).
    cbn [render]. rewrite (matchAllFrom_free pre 0 _ Hpre) by lia.
    specialize (IH Hrest).
    destruct pc as [|withSpace key|p|text].
    + destruct (marker_inner LocaleNameMarker Hpc eq_refl) as (c & inner & Ht & Hf).
      pose proof (packageJsonRegex_other LocaleNameMarker (render rest last)
                    eq_refl eq_refl) as Hn.
      rewrite Ht in *. rewrite (matchAllFrom_other_marker c inner _ Hf Hn). exact IH.
    + destruct (marker_inner (TranslateMarker withSpace key) Hpc eq_refl)
        as (c & inner & Ht & Hf).
      pose proof (packageJsonRegex_other (TranslateMarker withSpace key)
                    (render rest last) eq_refl eq_refl) as Hn.
      rewrite Ht in *. rewrite (matchAllFrom_other_marker c inner _ Hf Hn). exact IH.
    + cbn [pieceText packageMatchesOf].
      rewrite (matchAllFrom_marker p _ Hpc), IH. reflexivity.
    + cbn [pieceText packageMatchesOf pieceOk] in *.
      rewrite (matchAllFrom_free text 0 _ Hpc) by lia. exact IH.
Qed.

Lemma splitAtFirst_here pat r :
  JsString.splitAtFirst pat (pat ++ r) = Some ("", r).
Proof.
  pose proof (stripPrefix_append pat r) as H.
  destruct (pat ++ r) as [|c t]; cbn [JsString.splitAtFirst]; rewrite H; reflexivity.
Qed.

(** The search for a package marker passes over a stretch without opening
    braces. *)
Lemma splitAtFirst_free p x : forall s,
  braceFree x = true ->
  JsString.splitAtFirst ("{{package.json:" ++ p ++ "}}") (x ++ s)
  = prepend x (JsString.splitAtFirst ("{{package.json:" ++ p ++ "}}") s).
Proof.
  unfold braceFree. induction x as [|c x IH]; intros s Hfree.
  - simpl. destruct (JsString.splitAtFirst _ s) as [[b a]|]; reflexivity.
  - cbn [lacks] in Hfree. apply andb_true_iff in Hfree. destruct Hfree as [Hc Hx].
    apply negb_true_iff in Hc.
    change (String c x ++ s) with (String c (x ++ s)).
    cbn [JsString.splitAtFirst].
    assert (Hnone : JsString.stripPrefix ("{{package.json:" ++ p ++ "}}") (String c (x ++ s))
                    = None).
    { change ("{{package.json:" ++ p ++ "}}")
        with (String "{" ("{package.json:" ++ p ++ "}}")).
      cbn [JsString.stripPrefix]. rewrite Ascii.eqb_sym, Hc. reflexivity. }
    rewrite Hnone, (IH s Hx).
    destruct (JsString.splitAtFirst _ s) as [[b a]|]; reflexivity.
Qed.

(** It passes over a marker of another kind as well. *)
Lemma splitAtFirst_other_marker p c inner s :
  braceFree (String c inner) = true ->
  JsString.stripPrefix ("{{package.json:" ++ p ++ "}}")
    (String "{" (String "{" (String c inner)) ++ s) = None ->
  JsString.splitAtFirst ("{{package.json:" ++ p ++ "}}")
    (String "{" (String "{" (String c inner)) ++ s)
  = prepend (String "{" (String "{" (String c inner)))
      (JsString.splitAtFirst ("{{package.json:" ++ p ++ "}}") s).
Proof.
  intros Hfree Hnone.
  assert (Hc : Ascii.eqb "{" c = false).
  { unfold braceFree in Hfree. cbn [lacks] in Hfree.
    apply andb_true_iff in Hfree. destruct Hfree as [Hc _].
    apply negb_true_iff in Hc. rewrite Ascii.eqb_sym. exact Hc. }
  change (String "{" (String "{" (String c inner)) ++ s)
    with (String "{" (String "{" (String c inner ++ s))) in *.
  cbn [JsString.splitAtFirst]. rewrite Hnone.
  assert (H2 : JsString.stripPrefix ("{{package.json:" ++ p ++ "}}")
                 (String "{" (String c inner ++ s)) = None).
  { change ("{{package.json:" ++ p ++ "}}")
      with (String "{" (String "{" ("package.json:" ++ p ++ "}}"))).
    change (String c inner ++ s) with (String c (inner ++ s)).
    cbn [JsString.stripPrefix]. rewrite Ascii.eqb_refl, Hc. reflexivity. }
  rewrite H2, (splitAtFirst_free p (String c inner) s Hfree).
  destruct (JsString.splitAtFirst _ s) as [[b a]|]; reflexivity.
Qed.

Lemma stripPrefix_other pc p s :
  isMarker pc = true -> isPackage pc = false ->
  JsString.stripPrefix ("{{package.json:" ++ p ++ "}}") (pieceText pc ++ s) = None.
Proof.
  destruct pc as [|withSpace key|q|text]; try discriminate; intros _ _.
  - reflexivity.
  - cbn [pieceText]. rewrite marker_append. reflexivity.
Qed.

Lemma render_app done items last :
  render (done ++ items)%list last = render done (render items last).
Proof.
  induction done as [|[pre pc] rest IH]; [reflexivity|].
  cbn [List.app render]. rewrite IH. reflexivity.
Qed.

Lemma render_last done a b : render done (a ++ b) = render done a ++ b.
Proof.
  induction done as [|[pre pc] rest IH]; [reflexivity|].
  cbn [render]. rewrite IH, !append_assoc. reflexivity.
Qed.

(** In a text whose first pieces are not package markers, the first
    occurrence of a package marker's text is the first package marker. *)
Lemma splitAtFirst_render p done : forall pre rest,
  itemsOk done = true ->
  forallb (fun it => negb (isPackage (snd it))) done = true ->
  braceFree pre = true ->
  JsString.splitAtFirst ("{{package.json:" ++ p ++ "}}")
    (render done (pre ++ ("{{package.json:" ++ p ++ "}}") ++ rest))
  = Some (render done pre, rest).
Proof.
  induction done as [|[x pc] more IH]; intros pre rest Hok Hnp Hpre.
  - cbn [render]. rewrite (splitAtFirst_free p pre _ Hpre).
    rewrite splitAtFirst_here. cbn [prepend]. rewrite append_empty_r. reflexivity.
  - destruct (itemsOk_cons x pc more Hok) as (Hx & Hpc & Hmore).
    cbn [forallb snd] in Hnp. apply andb_true_iff in Hnp. destruct Hnp as [Hpk Hnp].
    apply negb_true_iff in Hpk.
    cbn [render]. rewrite (splitAtFirst_free p x _ Hx).
    specialize (IH pre rest Hmore Hnp Hpre).
    destruct (isMarker pc) eqn:Hmk.
    + destruct (marker_inner pc Hpc Hmk) as (c & inner & Ht & Hf).
      pose proof (stripPrefix_other pc p
                    (render more (pre ++ ("{{package.json:" ++ p ++ "}}") ++ rest))
                    Hmk Hpk) as Hn.
      rewrite Ht in *.
      rewrite (splitAtFirst_other_marker p c inner _ Hf Hn), IH.
      reflexivity.
    + destruct pc; try discriminate. cbn [pieceText pieceOk] in *.
      rewrite (splitAtFirst_free p text _ Hpc), IH.
      reflexivity.
Qed.

(** The literal replacements, one match after the other, on a text whose
    first pieces are done with. *)
Lemma literal_fold_render G items last : forall done,
  itemsOk done = true ->
  forallb (fun it => negb (isPackage (snd it))) done = true ->
  itemsOk items = true -> valuesOk G items = true ->
  fold_left
    (fun result m => replaceLiteral ("{{" ++ m ++ "}}") (resolvedText G m) result)
    (packageMatchesOf items)
    (render done (render items last))
  = render done (render (mapPieces (injectPiece G) items) last).
Proof.
  induction items as [|[pre pc] rest IH]; intros done Hdone Hnp Hok Hval; [reflexivity|].
  destruct (itemsOk_cons pre pc rest Hok) as (Hpre & Hpc & Hrest).
  unfold valuesOk in Hval. cbn [forallb snd] in Hval.
  apply andb_true_iff in Hval. destruct Hval as [Hv Hvals].
  assert (Hstep : forall pc',
             pieceOk pc' = true -> isPackage pc' = false ->
             itemsOk (done ++ [(pre, pc')])%list = true
             /\ forallb (fun it => negb (isPackage (snd it))) (done ++ [(pre, pc')])%list = true).
  { intros pc' Hok' Hnp'. unfold itemsOk. rewrite !forallb_app.
    fold (itemsOk done). rewrite Hdone, Hnp. cbn [forallb fst snd].
    rewrite Hpre, Hok', Hnp'. split; reflexivity. }
  destruct pc as [|withSpace key|p|text].
  - destruct (Hstep LocaleNameMarker Hpc eq_refl) as [H1 H2].
    cbn [packageMatchesOf mapPieces map fst snd injectPiece].
    specialize (IH (done ++ [(pre, LocaleNameMarker)])%list H1 H2 Hrest Hvals).
    rewrite !render_app in IH. exact IH.
  - destruct (Hstep (TranslateMarker withSpace key) Hpc eq_refl) as [H1 H2].
    cbn [packageMatchesOf mapPieces map fst snd injectPiece].
    specialize (IH (done ++ [(pre, TranslateMarker withSpace key)])%list H1 H2 Hrest Hvals).
    rewrite !render_app in IH. exact IH.
  - cbn [valueOk] in Hv.
    apply andb_true_iff in Hv. destruct Hv as [_ Hvfree].
    destruct (Hstep (Plain (resolvedText G ("package.json:" ++ p))) Hvfree eq_refl)
      as [H1 H2].
    cbn [packageMatchesOf fold_left].
    cbn [render pieceText].
    unfold replaceLiteral at 2.
    change ("{{" ++ ("package.json:" ++ p) ++ "}}") with ("{{package.json:" ++ p ++ "}}").
    rewrite (splitAtFirst_render p done pre (render rest last) Hdone Hnp Hpre).
    specialize (IH (done ++ [(pre, Plain (resolvedText G ("package.json:" ++ p)))])%list
                  H1 H2 Hrest Hvals).
    rewrite !render_app in IH. cbn [render pieceText] in IH.
    cbn [mapPieces map fst snd injectPiece render pieceText].
    rewrite <- (render_last done pre _). exact IH.
  - destruct (Hstep (Plain text) Hpc eq_refl) as [H1 H2].
    cbn [packageMatchesOf mapPieces map fst snd injectPiece].
    specialize (IH (done ++ [(pre, Plain text)])%list H1 H2 Hrest Hvals).
    rewrite !render_app in IH. exact IH.
Qed.

Lemma valuesOk_literal G items m :
  valuesOk G items = true -> In m (packageMatchesOf items) -> literalValue G m = true.
Proof.
  unfold valuesOk.
  induction items as [|[pre pc] rest IH]; intros Hval Hin; [destruct Hin|].
  cbn [forallb snd] in Hval. apply andb_true_iff in Hval. destruct Hval as [Hv Hvals].
  destruct pc as [|withSpace key|p|text]; cbn [packageMatchesOf] in Hin;
    try (apply IH; assumption).
  destruct Hin as [E|Hin]; [|apply IH; assumption].
  subst m. cbn [valueOk] in Hv. apply andb_true_iff in Hv. apply Hv.
Qed.

(** The metadata pass over a rendered text, piece by piece. *)
Lemma inject_render (G : Globals) (items : list (string * piece)) (last : string) :
  itemsOk items = true ->
  valuesOk G items = true ->
  braceFree last = true ->
  injectPackageVariables G (render items last)
  = Normal (render (mapPieces (injectPiece G) items) last).
Proof.
  intros Hok Hval Hlast.
  pose proof (packageMatches_render items last Hok Hlast) as Hm.
  rewrite injectPackageVariables_literal.
  - f_equal. unfold injectLiteral. rewrite Hm.
    exact (literal_fold_render G items last [] eq_refl eq_refl Hok Hval).
  - intros m Hin. rewrite Hm in Hin. exact (valuesOk_literal G items m Hval Hin).
Qed.

(** ** Properties of the two passes and of their composition *)



(** X2.  Take a text made of stretches without opening braces and of
    markers, in which the path of every package marker resolves, without
    raising, to a value that is not a function and that converts to a text
    without opening brace and without replacement pattern.  The metadata
    pass puts that text in place of every package marker; a marker that
    occurs several times is replaced each time, and markers of another
    kind stay as they are. *)
Theorem inject_every_marker (G : Globals) (items : list (string * piece)) (last : string) :
  itemsOk items = true ->
  valuesOk G items = true ->
  braceFree last = true ->
  injectPackageVariables G (render items last)
  = Normal (render (mapPieces (injectPiece G) items) last).
Proof. exact (inject_render G items last). Qed.

Lemma inject_every_marker_witness :
  (itemsOk samplePage = true
   /\ valuesOk plainGlobals samplePage = true
   /\ braceFree "</p>" = true)
  /\ injectPackageVariables plainGlobals
       "<html lang={{localeName}}><title>{{translate: title}} {{package.json:version}}</title><p>{{translate:bye}} {{translate:unknown}} {{package.json: repository.type }}</p>"
     = Normal "<html lang={{localeName}}><title>{{translate: title}} 1.8.0</title><p>{{translate:bye}} {{translate:unknown}} git</p>".
Proof.
  assert (H1 : itemsOk samplePage = true) by (vm_compute; reflexivity).
  assert (H2 : valuesOk plainGlobals samplePage = true) by (vm_compute; reflexivity).
  assert (H3 : braceFree "</p>" = true) by (vm_compute; reflexivity).
  split; [repeat split; assumption|].
  exact (inject_every_marker plainGlobals samplePage "</p>" H1 H2 H3).
Defined.

Lemma localizePiece_ok G pc :
  localeOk G = true -> pieceOk pc = true -> pieceOk (localizePiece G pc) = true.
Proof.
  intros HG Hpc. destruct (localeOk_facts G HG) as [Hname Hkeys].
  destruct pc as [|withSpace key|p|text]; cbn [localizePiece]; try exact Hpc.
  - cbn [pieceOk]. unfold plainText in Hname. apply andb_true_iff in Hname. tauto.
  - destruct (Locale.lookup key (Locale.spread (english G) (activeLocale G))) as [v|] eqn:E;
      [|exact Hpc].
    destruct (Hkeys key (LocaleFacts.lookup_Some_in key _ v E)) as [_ Hv].
    unfold translationOf in Hv. rewrite E in Hv.
    cbn [pieceOk]. unfold plainText in Hv. apply andb_true_iff in Hv. tauto.
Qed.

Lemma localizePiece_items G items :
  localeOk G = true -> itemsOk items = true -> valuesOk G items = true ->
  itemsOk (mapPieces (localizePiece G) items) = true
  /\ valuesOk G (mapPieces (localizePiece G) items) = true.
Proof.
  intros HG. induction items as [|[pre pc] rest IH]; intros Hok Hval; [split; reflexivity|].
  destruct (itemsOk_cons pre pc rest Hok) as (Hpre & Hpc & Hrest).
  unfold valuesOk in Hval. cbn [forallb snd] in Hval.
  apply andb_true_iff in Hval. destruct Hval as [Hv Hvals].
  destruct (IH Hrest Hvals) as [IH1 IH2].
  unfold itemsOk, valuesOk, mapPieces in *. cbn [map forallb fst snd].
  rewrite Hpre, (localizePiece_ok G pc HG Hpc), IH1, IH2.
  split; [reflexivity|]. rewrite andb_true_r.
  destruct pc as [|withSpace key|p|text]; cbn [localizePiece valueOk]; try reflexivity.
  - destruct (Locale.lookup key _); reflexivity.
  - exact Hv.
Qed.

Lemma transform_render G items last :
  localeOk G = true -> itemsOk items = true -> valuesOk G items = true ->
  braceFree last = true ->
  transformContent G (render items last)
  = Normal (render (mapPieces (fun pc => injectPiece G (localizePiece G pc)) items) last).
Proof.
  intros HG Hok Hval Hlast. unfold transformContent.
  rewrite (localize_render G items last HG Hok Hlast).
  destruct (localizePiece_items G items HG Hok Hval) as [Hok' Hval'].
  rewrite (inject_render G _ last Hok' Hval' Hlast), mapPieces_compose. reflexivity.
Qed.

(** X3.  A script file the [transform-content] plugin loads goes through
    the locale pass and then the metadata pass.  Take locale data that can
    be taken literally (every key free of regular-expression syntax and of
    a leading space, the locale name and every translation without
    opening brace and without replacement pattern), a source made of
    stretches without opening braces and of markers, and metadata that can
    be inserted as it is (the path of every package marker resolves,
    without raising, to a value that is not a function and that converts
    to a text without opening brace and without replacement pattern).
    Then every locale-name marker, every translate marker with a known
    key and every package marker is resolved, and a translate marker with
    an unknown key stays.  A file whose name does not end in [.js] is not
    handled, and a file that cannot be read makes the callback raise. *)
Theorem onLoad_resolves_every_marker
        (G : Globals) (readFile : string -> completion string) (file : string)
        (items : list (string * piece)) (last : string) :
  localeOk G = true ->
  itemsOk items = true ->
  valuesOk G items = true ->
  braceFree last = true ->
  (JsString.endsWith ".js" file = true ->
   readFile file = Normal (render items last) ->
   onLoad G readFile file
   = Some (Normal (render (mapPieces (fun pc => injectPiece G (localizePiece G pc)) items)
                     last)))
  /\ (JsString.endsWith ".js" file = false -> onLoad G readFile file = None)
  /\ (forall e, JsString.endsWith ".js" file = true -> readFile file = Throw e ->
                onLoad G readFile file = Some (Throw e)).
Proof.
  intros HG Hok Hval Hlast. unfold onLoad. split; [|split].
  - intros Hjs Hread. rewrite Hjs, Hread. cbn [bind].
    rewrite (transform_render G items last HG Hok Hval Hlast). reflexivity.
  - intros Hjs. rewrite Hjs. reflexivity.
  - intros e Hjs Hread. rewrite Hjs, Hread. reflexivity.
Qed.

Lemma onLoad_resolves_every_marker_witness :
  (localeOk plainGlobals = true
   /\ itemsOk samplePage = true
   /\ valuesOk plainGlobals samplePage = true
   /\ braceFree "</p>" = true
   /\ JsString.endsWith ".js" "views/page.js" = true)
  /\ onLoad plainGlobals (fun _ => Normal (render samplePage "</p>")) "views/page.js"
     = Some (Normal "<html lang=fr-FR><title>Le Wiki 1.8.0</title><p>Goodbye {{translate:unknown}} git</p>").
Proof.
  assert (H0 : localeOk plainGlobals = true) by (vm_compute; reflexivity).
  assert (H1 : itemsOk samplePage = true) by (vm_compute; reflexivity).
  assert (H2 : valuesOk plainGlobals samplePage = true) by (vm_compute; reflexivity).
  assert (H3 : braceFree "</p>" = true) by (vm_compute; reflexivity).
  assert (H4 : JsString.endsWith ".js" "views/page.js" = true) by (vm_compute; reflexivity).
  split; [repeat split; assumption|].
  exact (proj1 (onLoad_resolves_every_marker plainGlobals
                  (fun _ => Normal (render samplePage "</p>")) "views/page.js"
                  samplePage "</p>" H0 H1 H2 H3) H4 eq_refl).
Defined.

(** ** Sources without markers *)

Lemma packageMatches_absent text :
  JsString.includes "{{package.json:" text = false -> packageMatches text = [].
Proof.
  unfold packageMatches. induction text as [|c t IH]; [reflexivity|].
  intros H. rewrite includes_cons in H. apply orb_false_iff in H. destruct H as [H0 Ht].
  rewrite matchAllFrom_scan.
  assert (E : packageJsonRegex (String c t) = None).
  { unfold packageJsonRegex. unfold JsString.startsWith in H0.
    destruct (JsString.stripPrefix "{{package.json:" (String c t)); [discriminate | reflexivity]. }
  rewrite E. exact (IH Ht).
Qed.

Lemma localize_absent G text :
  JsString.includes "{{localeName}}" text = false ->
  JsString.includes "{{translate:" text = false ->
  localize G text = text.
Proof.
  intros Hname Htr. unfold localize. cbv zeta.
  unfold JsString.replaceAll at 2.
  rewrite (replaceAllFrom_absent "{{localeName}}" localeNameRegex (localeName G)
             localeNameRegex_at text "" Hname).
  induction (Locale.keys (Locale.spread (english G) (activeLocale G))) as [|k rest IH];
    [reflexivity|].
  cbn [fold_left]. unfold JsString.replaceAll at 2.
  rewrite (replaceAllFrom_absent "{{translate:" (translateRegex k) _
             (translateRegex_at k) text "" Htr).
  exact IH.
Qed.

(** X4.  A text in which neither [{{localeName}}] nor [{{translate:] nor
    [{{package.json:] occurs goes through both passes unchanged, whatever
    else it holds, for locale keys free of regular-expression syntax. *)
Theorem text_without_markers_is_unchanged (G : Globals) (text : string) :
  forallb regexLiteral (Locale.keys (Locale.spread (english G) (activeLocale G))) = true ->
  JsString.includes "{{localeName}}" text = false ->
  JsString.includes "{{translate:" text = false ->
  JsString.includes "{{package.json:" text = false ->
  localize G text = text
  /\ injectPackageVariables G text = Normal text
  /\ transformContent G text = Normal text.
Proof.
  intros _ Hname Htr Hpkg.
  assert (Hl : localize G text = text) by (apply localize_absent; assumption).
  assert (Hi : injectPackageVariables G text = Normal text).
  { unfold injectPackageVariables. rewrite (packageMatches_absent text Hpkg). reflexivity. }
  split; [exact Hl|]. split; [exact Hi|].
  unfold transformContent. rewrite Hl. exact Hi.
Qed.

Lemma text_without_markers_is_unchanged_witness :
  (forallb regexLiteral
     (Locale.keys (Locale.spread (english sampleGlobals) (activeLocale sampleGlobals))) = true
   /\ JsString.includes "{{localeName}}" "const f = ({ a }) => `${a}{{b}}`;" = false
   /\ JsString.includes "{{translate:" "const f = ({ a }) => `${a}{{b}}`;" = false
   /\ JsString.includes "{{package.json:" "const f = ({ a }) => `${a}{{b}}`;" = false)
  /\ transformContent sampleGlobals "const f = ({ a }) => `${a}{{b}}`;"
     = Normal "const f = ({ a }) => `${a}{{b}}`;".
Proof.
  assert (H0 : forallb regexLiteral
                 (Locale.keys (Locale.spread (english sampleGlobals)
                                 (activeLocale sampleGlobals))) = true)
    by (vm_compute; reflexivity).
  assert (H1 : JsString.includes "{{localeName}}" "const f = ({ a }) => `${a}{{b}}`;" = false)
    by (vm_compute; reflexivity).
  assert (H2 : JsString.includes "{{translate:" "const f = ({ a }) => `${a}{{b}}`;" = false)
    by (vm_compute; reflexivity).
  assert (H3 : JsString.includes "{{package.json:" "const f = ({ a }) => `${a}{{b}}`;" = false)
    by (vm_compute; reflexivity).
  split; [repeat split; assumption|].
  exact (proj2 (proj2 (text_without_markers_is_unchanged sampleGlobals
                         "const f = ({ a }) => `${a}{{b}}`;" H0 H1 H2 H3))).
Defined.

(** ** The document that is written *)

(** X5.  When the shell can be read and the style sheet builds, for locale
    keys free of regular-expression syntax, handling a build result logs
    the sizes of the outputs and takes the shell, with the style and
    script outputs spliced in, in this order, through the locale pass and
    then the metadata pass: the same transform the script sources go
    through.  When the transform returns, its result is the document
    handed to [writeHtmlOutput]; when it raises, the handler raises the
    same exception and no write is started. *)
Theorem handleBuildResult_writes_transformed_shell
        (G : Globals) (env : Env) (result : BuildResult) (w : World)
        (html : string) (css : list OutputFile) :
  readShell env = Normal html ->
  buildSyncCss env = Normal css ->
  literalKeys G = true ->
  (forall document,
      transformContent G (assemble html (css ++ outputFiles result)%list) = Normal document ->
      handleBuildResult G env result w
      = writeHtmlOutput env document
          (fold_left logOutput (css ++ outputFiles result)%list w))
  /\ (forall e,
        transformContent G (assemble html (css ++ outputFiles result)%list) = Throw e ->
        handleBuildResult G env result w
        = (fold_left logOutput (css ++ outputFiles result)%list w, Throw e)
        /\ pendingWrites (fst (handleBuildResult G env result w)) = pendingWrites w).
Proof.
  intros Hshell Hcss _.
  rewrite (handleBuildResult_unfold G env result w html css Hshell Hcss).
  split.
  - intros document Hdoc. rewrite Hdoc. reflexivity.
  - intros e He. rewrite He. split; [reflexivity|]. cbn [fst].
    apply (logOutputs_fields (css ++ outputFiles result)%list w).
Qed.

Lemma handleBuildResult_writes_transformed_shell_witness :
  (readShell sampleEnv = Normal sampleShell
   /\ buildSyncCss sampleEnv
      = Normal [ {| path := "build/index.css"; contents := "body{margin:0}" |} ]
   /\ literalKeys sampleGlobals = true
   /\ transformContent sampleGlobals
        (assemble sampleShell
           ([ {| path := "build/index.css"; contents := "body{margin:0}" |} ]
            ++ outputFiles sampleResult)%list)
      = Normal sampleDocument)
  /\ handleBuildResult sampleGlobals sampleEnv sampleResult freshWorld
     = writeHtmlOutput sampleEnv sampleDocument
         (fold_left logOutput
            ([ {| path := "build/index.css"; contents := "body{margin:0}" |} ]
             ++ outputFiles sampleResult)%list freshWorld).
Proof.
  assert (Hdoc : transformContent sampleGlobals
                   (assemble sampleShell
                      ([ {| path := "build/index.css"; contents := "body{margin:0}" |} ]
                       ++ outputFiles sampleResult)%list)
                 = Normal sampleDocument) by (vm_compute; reflexivity).
  split; [repeat (split; [reflexivity|]); exact Hdoc|].
  exact (proj1 (handleBuildResult_writes_transformed_shell sampleGlobals sampleEnv
                  sampleResult freshWorld sampleShell
                  [ {| path := "build/index.css"; contents := "body{margin:0}" |} ]
                  eq_refl eq_refl eq_refl)
           sampleDocument Hdoc).
Defined.

(** A metadata marker in the shell that names an inherited member makes
    the handler raise. *)
Example handler_raises_on_inherited_member :
  snd (handleBuildResult sampleGlobals
         {| readShell := Normal "<p>{{package.json:constructor.caller}}</p>";
            buildSyncCss := Normal [];
            mkdirSync := Normal tt |}
         {| errors := []; outputFiles := [] |} freshWorld)
  = Throw (TypeError "'caller' may not be accessed on this function").
Proof. vm_compute; reflexivity. Qed.

(** ** Splicing at the edges *)

(** A path that ends in [.js] does not end in [.css]. *)
Lemma js_is_not_css file :
  JsString.endsWith ".js" file = true -> JsString.endsWith ".css" file = false.
Proof.
  induction file as [|c t IH]; [discriminate|].
  cbn [JsString.endsWith]. intros H. apply orb_true_iff in H.
  destruct H as [H|H].
  - apply String.eqb_eq in H. injection H as Hc Ht. subst c t. reflexivity.
  - rewrite (IH H), orb_false_r.
    destruct (String.eqb_spec ".css" (String c t)) as [E|NE]; [|reflexivity].
    injection E as Hc Ht. subst c t. discriminate H.
Qed.

(** X6.  When the text holds no JS marker, the script output is put after
    the whole text and the word [undefined] after it: the second part of
    the split is not there. *)
Theorem splice_without_js_marker (html : string) (out : OutputFile) :
  JsString.endsWith ".js" (path out) = true ->
  JsString.includes "{{jsOutput}}" html = false ->
  spliceOutput html out = html ++ contents out ++ "undefined".
Proof.
  intros Hjs Hno. pose proof (js_is_not_css _ Hjs) as Hcss.
  unfold spliceOutput. rewrite Hcss, Hjs.
  unfold JsString.split. rewrite (splitFuel_absent "{{jsOutput}}" html _ Hno).
  reflexivity.
Qed.

Lemma splice_without_js_marker_witness :
  (JsString.endsWith ".js" "build/index.js" = true
   /\ JsString.includes "{{jsOutput}}" "<body></body>" = false)
  /\ spliceOutput "<body></body>" {| path := "build/index.js"; contents := "main()" |}
     = "<body></body>" ++ "main()" ++ "undefined".
Proof.
  split; [repeat split; vm_compute; reflexivity|].
  exact (splice_without_js_marker "<body></body>"
           {| path := "build/index.js"; contents := "main()" |}
           eq_refl eq_refl).
Defined.

(** X7.  When the text holds a second JS marker, the script output takes
    the place of the first one and the text stops before the second:
    everything from the second marker on is lost. *)
Theorem splice_drops_after_second_js_marker
        (html : string) (out : OutputFile) (P S M R : string) :
  JsString.endsWith ".js" (path out) = true ->
  JsString.splitAtFirst "{{jsOutput}}" html = Some (P, S) ->
  JsString.splitAtFirst "{{jsOutput}}" S = Some (M, R) ->
  html = P ++ "{{jsOutput}}" ++ M ++ "{{jsOutput}}" ++ R
  /\ spliceOutput html out = P ++ contents out ++ M.
Proof.
  intros Hjs Hcut1 Hcut2. pose proof (js_is_not_css _ Hjs) as Hcss.
  pose proof (splitAtFirst_sound _ _ _ _ Hcut1) as E1.
  pose proof (splitAtFirst_sound _ _ _ _ Hcut2) as E2.
  split; [rewrite E1, E2; reflexivity|].
  unfold spliceOutput. rewrite Hcss, Hjs. unfold JsString.split.
  assert (Hlen : 2 <= String.length html).
  { rewrite E1, E2, !append_length. simpl. lia. }
  destruct (String.length html) as [|[|n]]; [lia | lia |].
  cbn [JsString.splitFuel]. rewrite Hcut1, Hcut2. reflexivity.
Qed.

Lemma splice_drops_after_second_js_marker_witness :
  (JsString.endsWith ".js" "build/index.js" = true
   /\ JsString.splitAtFirst "{{jsOutput}}" "<a>{{jsOutput}}<b>{{jsOutput}}<c>"
      = Some ("<a>", "<b>{{jsOutput}}<c>")
   /\ JsString.splitAtFirst "{{jsOutput}}" "<b>{{jsOutput}}<c>" = Some ("<b>", "<c>"))
  /\ spliceOutput "<a>{{jsOutput}}<b>{{jsOutput}}<c>"
       {| path := "build/index.js"; contents := "main()" |}
     = "<a>" ++ "main()" ++ "<b>".
Proof.
  split; [repeat split; vm_compute; reflexivity|].
  exact (proj2 (splice_drops_after_second_js_marker "<a>{{jsOutput}}<b>{{jsOutput}}<c>"
                  {| path := "build/index.js"; contents := "main()" |}
                  "<a>" "<b>{{jsOutput}}<c>" "<b>" "<c>"
                  eq_refl eq_refl eq_refl)).
Defined.

(** ** The dotted path of a marker *)

Lemma trimStart_blank ws : forall s,
  blank ws = true -> JsString.trimStart (ws ++ s) = JsString.trimStart s.
Proof.
  induction ws as [|c ws IH]; intros s H; [reflexivity|].
  cbn [blank] in H. apply andb_true_iff in H. destruct H as [Hc Hws].
  change (String c ws ++ s) with (String c (ws ++ s)).
  cbn [JsString.trimStart]. rewrite Hc. exact (IH s Hws).
Qed.

Lemma trimEnd_blank ws : blank ws = true -> JsString.trimEnd ws = "".
Proof.
  induction ws as [|c ws IH]; intros H; [reflexivity|].
  cbn [blank] in H. apply andb_true_iff in H. destruct H as [Hc Hws].
  cbn [JsString.trimEnd]. rewrite (IH Hws), Hc. reflexivity.
Qed.

Lemma trimEnd_app_blank ws s :
  blank ws = true -> JsString.trimEnd (s ++ ws) = JsString.trimEnd s.
Proof.
  intros H. induction s as [|c s IH]; [exact (trimEnd_blank ws H)|].
  change (String c s ++ ws) with (String c (s ++ ws)).
  cbn [JsString.trimEnd]. rewrite IH. reflexivity.
Qed.

Lemma trimStart_app_blank ws x :
  blank ws = true ->
  JsString.trimStart (x ++ ws)
  = match JsString.trimStart x with
    | EmptyString => EmptyString
    | String c y => String c y ++ ws
    end.
Proof.
  intros H. induction x as [|c x IH].
  - simpl. rewrite <- (append_empty_r ws), (trimStart_blank ws "" H). reflexivity.
  - change (String c x ++ ws) with (String c (x ++ ws)).
    cbn [JsString.trimStart]. destruct (JsString.isWhiteSpace c); [exact IH | reflexivity].
Qed.

(** White space around a text does not change what [trim] gives. *)
Lemma trim_blank_around ws1 ws2 x :
  blank ws1 = true -> blank ws2 = true ->
  JsString.trim (ws1 ++ x ++ ws2) = JsString.trim x.
Proof.
  intros H1 H2. unfold JsString.trim.
  rewrite (trimStart_blank ws1 _ H1), (trimStart_app_blank ws2 x H2).
  destruct (JsString.trimStart x) as [|c y]; [reflexivity|].
  apply trimEnd_app_blank. exact H2.
Qed.

Lemma replace_leading_prefix x :
  JsString.replace "package.json:" "" ("package.json:" ++ x) = x.
Proof.
  unfold JsString.replace. rewrite splitAtFirst_here. reflexivity.
Qed.

Lemma splitAtFirst_dot k : forall rest,
  lacks "." k = true ->
  JsString.splitAtFirst "." (k ++ "." ++ rest) = Some (k, rest).
Proof.
  induction k as [|c k IH]; intros rest H; [reflexivity|].
  cbn [lacks] in H. apply andb_true_iff in H. destruct H as [Hc Hk].
  apply negb_true_iff in Hc.
  change (String c k ++ "." ++ rest) with (String c (k ++ "." ++ rest)).
  cbn [JsString.splitAtFirst JsString.stripPrefix].
  rewrite Ascii.eqb_sym, Hc, (IH rest Hk). reflexivity.
Qed.

Lemma includes_dot k : lacks "." k = true -> JsString.includes "." k = false.
Proof.
  induction k as [|c k IH]; [reflexivity|].
  cbn [lacks]. intros H. apply andb_true_iff in H. destruct H as [Hc Hk].
  apply negb_true_iff in Hc.
  rewrite includes_cons, (IH Hk), orb_false_r.
  unfold JsString.startsWith. cbn [JsString.stripPrefix].
  rewrite Ascii.eqb_sym, Hc. reflexivity.
Qed.

(** Cutting at the dots gives back the segments that were joined. *)
Lemma splitFuel_concat ks : forall fuel,
  ks <> [] ->
  Forall (fun k => lacks "." k = true) ks ->
  String.length (String.concat "." ks) <= fuel ->
  JsString.splitFuel fuel "." (String.concat "." ks) = ks.
Proof.
  induction ks as [|k rest IH]; intros fuel Hne Hks Hfuel; [congruence|].
  inversion Hks as [|? ? Hk Hrest]; subst.
  destruct rest as [|k2 rest].
  - cbn [String.concat]. apply splitFuel_absent. apply includes_dot. exact Hk.
  - change (String.concat "." (k :: k2 :: rest))
      with (k ++ "." ++ String.concat "." (k2 :: rest)) in *.
    rewrite !append_length in Hfuel. change (String.length ".") with 1 in Hfuel.
    destruct fuel as [|fuel]; [lia|].
    cbn [JsString.splitFuel]. rewrite (splitAtFirst_dot k _ Hk). f_equal.
    apply IH; [discriminate | exact Hrest | lia].
Qed.

(** X8.  The dotted path of a marker is read without the white space
    around it and cut at its dots: for segments without dots, joined by
    dots, the reduction runs over exactly these segments, first in the
    descriptor and then in what each read gave. *)
Theorem marker_path_is_trimmed_and_cut_at_dots
        (G : Globals) (ws1 ws2 : string) (ks : list string) :
  blank ws1 = true ->
  blank ws2 = true ->
  ks <> [] ->
  Forall (fun k => lacks "." k = true) ks ->
  JsString.trim (String.concat "." ks) = String.concat "." ks ->
  pathOf ("package.json:" ++ ws1 ++ String.concat "." ks ++ ws2) = ks
  /\ resolve G ("package.json:" ++ ws1 ++ String.concat "." ks ++ ws2)
     = reduce (reducer G) ks JNull.
Proof.
  intros H1 H2 Hne Hks Htrim.
  assert (E : pathOf ("package.json:" ++ ws1 ++ String.concat "." ks ++ ws2) = ks).
  { unfold pathOf. rewrite replace_leading_prefix, (trim_blank_around ws1 ws2 _ H1 H2), Htrim.
    unfold JsString.split. apply splitFuel_concat; [exact Hne | exact Hks | apply le_n]. }
  split; [exact E|]. unfold resolve. rewrite E. reflexivity.
Qed.

Lemma marker_path_is_trimmed_and_cut_at_dots_witness :
  (blank " " = true
   /\ blank "  " = true
   /\ ["repository"; "type"] <> []
   /\ Forall (fun k => lacks "." k = true) ["repository"; "type"]
   /\ JsString.trim (String.concat "." ["repository"; "type"])
      = String.concat "." ["repository"; "type"])
  /\ pathOf ("package.json:" ++ " " ++ String.concat "." ["repository"; "type"] ++ "  ")
     = ["repository"; "type"].
Proof.
  assert (H1 : blank " " = true) by reflexivity.
  assert (H2 : blank "  " = true) by reflexivity.
  assert (H3 : ["repository"; "type"] <> []) by discriminate.
  assert (H4 : Forall (fun k => lacks "." k = true) ["repository"; "type"])
    by (repeat constructor).
  assert (H5 : JsString.trim (String.concat "." ["repository"; "type"])
               = String.concat "." ["repository"; "type"]) by (vm_compute; reflexivity).
  split; [repeat split; assumption|].
  exact (proj1 (marker_path_is_trimmed_and_cut_at_dots sampleGlobals " " "  "
                  ["repository"; "type"] H1 H2 H3 H4 H5)).
Defined.

(** X9.  A path of one segment reads the top-level field of that name.
    When the descriptor has the field, the marker resolves to its value,
    or to the empty string when the value is [null].  When the descriptor
    lacks the field, the marker resolves to what the descriptor inherits
    under that name, or to the empty string when that is nothing: so it is
    for every name under which the runtime has no member. *)
Theorem single_segment_reads_top_level_field (G : Globals) (k : string) :
  lacks "." k = true ->
  JsString.trim k = k ->
  (forall v, Json.lookup k (packageJson G) = Some v ->
             resolve G ("package.json:" ++ k) = Normal (coalesce v (JString "")))
  /\ (Json.lookup k (packageJson G) = None ->
      resolve G ("package.json:" ++ k)
      = (v <- inherited (runtime G) (JObject (packageJson G)) k ;;
         Normal (coalesce v (JString ""))))
  /\ (Json.lookup k (packageJson G) = None -> quietName G k = true ->
      resolve G ("package.json:" ++ k) = Normal (JString "")).
Proof.
  intros Hk Htrim.
  assert (E : resolve G ("package.json:" ++ k) = reduce (reducer G) [k] JNull).
  { unfold resolve, pathOf.
    rewrite replace_leading_prefix, Htrim. unfold JsString.split.
    rewrite (splitFuel_absent "." k _ (includes_dot k Hk)). reflexivity. }
  rewrite E. cbn [reduce]. unfold reducer, get.
  split; [|split].
  - intros v Hv. rewrite Hv. reflexivity.
  - intros Hnone. rewrite Hnone.
    destruct (inherited (runtime G) (JObject (packageJson G)) k); reflexivity.
  - intros Hnone Hq. rewrite Hnone, (quietName_inherited G _ k Hq). reflexivity.
Qed.

Lemma single_segment_reads_top_level_field_witness :
  (lacks "." "version" = true
   /\ JsString.trim "version" = "version"
   /\ Json.lookup "version" (packageJson sampleGlobals) = Some (JString "1.8.0")
   /\ lacks "." "homepage" = true
   /\ JsString.trim "homepage" = "homepage"
   /\ Json.lookup "homepage" (packageJson sampleGlobals) = None
   /\ quietName sampleGlobals "homepage" = true)
  /\ resolve sampleGlobals ("package.json:" ++ "version") = Normal (JString "1.8.0")
  /\ resolve sampleGlobals ("package.json:" ++ "homepage") = Normal (JString "").
Proof.
  split; [repeat (split; [vm_compute; reflexivity|]); vm_compute; reflexivity|].
  split.
  - exact (proj1 (single_segment_reads_top_level_field sampleGlobals "version"
                    eq_refl eq_refl) (JString "1.8.0") eq_refl).
  - exact (proj2 (proj2 (single_segment_reads_top_level_field sampleGlobals "homepage"
                           eq_refl eq_refl)) eq_refl eq_refl).
Defined.

(** ** The merged translations *)

Lemma in_keys_assign source : forall target k,
  In k (Locale.keys (Locale.assign target source))
  <-> In k (Locale.keys target) \/ In k (Locale.keys source).
Proof.
  unfold Locale.assign.
  induction source as [|[k0 v0] rest IH]; intros target k.
  - simpl. tauto.
  - cbn [fold_left fst snd]. rewrite IH, LocaleFacts.in_keys_set. simpl.
    intuition congruence.
Qed.

(** X10.  The mapping [{ ...english, ...activeLocale }] of mappings with
    distinct keys: a key has the active locale's text when the active
    locale has it and the default text otherwise; its keys are the keys of
    either mapping, each once. *)
Theorem merged_translations (a b : localeMapping) :
  NoDup (Locale.keys a) ->
  NoDup (Locale.keys b) ->
  (forall k,
      Locale.lookup k (Locale.spread a b)
      = match Locale.lookup k b with
        | Some v => Some v
        | None => Locale.lookup k a
        end)
  /\ NoDup (Locale.keys (Locale.spread a b))
  /\ (forall k,
        In k (Locale.keys (Locale.spread a b))
        <-> In k (Locale.keys a) \/ In k (Locale.keys b)).
Proof.
  intros Ha Hb. split; [|split].
  - intros k. apply LocaleFacts.lookup_spread; assumption.
  - apply LocaleFacts.NoDup_keys_spread.
  - intros k. unfold Locale.spread. rewrite !in_keys_assign. simpl. tauto.
Qed.

Lemma merged_translations_witness :
  (NoDup (Locale.keys (english sampleGlobals))
   /\ NoDup (Locale.keys (activeLocale sampleGlobals)))
  /\ Locale.lookup "bye" (Locale.spread (english sampleGlobals) (activeLocale sampleGlobals))
     = match Locale.lookup "bye" (activeLocale sampleGlobals) with
       | Some v => Some v
       | None => Locale.lookup "bye" (english sampleGlobals)
       end.
Proof.
  assert (N1 : NoDup (Locale.keys (english sampleGlobals))).
  { repeat constructor; simpl; intuition discriminate. }
  assert (N2 : NoDup (Locale.keys (activeLocale sampleGlobals))).
  { repeat constructor; simpl; intuition discriminate. }
  split; [split; assumption|].
  exact (proj1 (merged_translations (english sampleGlobals) (activeLocale sampleGlobals)
                  N1 N2) "bye").
Defined.

(** X11.  Without [FEATHERWIKI_LOCALE] the locale is [en-US] and the active
    mapping is the default one.  When the selected locale has no file the
    active mapping is the default one as well, and then every key
    translates to its default text. *)
Theorem locale_falls_back_to_default
        (localesDir : string -> option localeMapping)
        (FEATHERWIKI_LOCALE : option string) (packageJsonFile : descriptor)
        (R : Runtime) :
  (FEATHERWIKI_LOCALE = None ->
   localeName (loadGlobals localesDir FEATHERWIKI_LOCALE packageJsonFile R) = "en-US"
   /\ activeLocale (loadGlobals localesDir FEATHERWIKI_LOCALE packageJsonFile R)
      = english (loadGlobals localesDir FEATHERWIKI_LOCALE packageJsonFile R))
  /\ (loadLocale localesDir
        (localeName (loadGlobals localesDir FEATHERWIKI_LOCALE packageJsonFile R)) = None ->
      activeLocale (loadGlobals localesDir FEATHERWIKI_LOCALE packageJsonFile R)
      = english (loadGlobals localesDir FEATHERWIKI_LOCALE packageJsonFile R)
      /\ (NoDup (Locale.keys (english (loadGlobals localesDir FEATHERWIKI_LOCALE packageJsonFile R))) ->
          forall k,
            Locale.lookup k
              (Locale.spread
                 (english (loadGlobals localesDir FEATHERWIKI_LOCALE packageJsonFile R))
                 (activeLocale (loadGlobals localesDir FEATHERWIKI_LOCALE packageJsonFile R)))
            = Locale.lookup k
                (english (loadGlobals localesDir FEATHERWIKI_LOCALE packageJsonFile R)))).
Proof.
  split.
  - intros E. subst FEATHERWIKI_LOCALE. unfold loadGlobals.
    cbn [localeName activeLocale english]. split; [reflexivity|].
    destruct (loadLocale localesDir "en-US"); reflexivity.
  - intros Hmiss.
    destruct (missing_locale_falls_back localesDir FEATHERWIKI_LOCALE packageJsonFile R Hmiss)
      as [Hactive _].
    split; [exact Hactive|]. intros Hnd k. rewrite Hactive.
    rewrite (LocaleFacts.lookup_spread _ _ k Hnd Hnd).
    destruct (Locale.lookup k _); reflexivity.
Qed.

Lemma locale_falls_back_to_default_witness :
  loadLocale (fun name => if String.eqb name "en-US" then Some [("hello", "Hello")] else None)
    (localeName
       (loadGlobals
          (fun name => if String.eqb name "en-US" then Some [("hello", "Hello")] else None)
          (Some "de-DE") [] sampleRuntime)) = None
  /\ activeLocale
       (loadGlobals
          (fun name => if String.eqb name "en-US" then Some [("hello", "Hello")] else None)
          (Some "de-DE") [] sampleRuntime)
     = [("hello", "Hello")].
Proof.
  split; [reflexivity|].
  exact (proj1 (proj2 (locale_falls_back_to_default
                         (fun name => if String.eqb name "en-US"
                                      then Some [("hello", "Hello")] else None)
                         (Some "de-DE") [] sampleRuntime) eq_refl)).
Defined.
(** ** The output file *)

Lemma handleBuildResult_keeps G env r w :
  exitStatus (fst (handleBuildResult G env r w)) = exitStatus w
  /\ listening (fst (handleBuildResult G env r w)) = listening w
  /\ outputFile (fst (handleBuildResult G env r w)) = outputFile w.
Proof.
  unfold handleBuildResult.
  destruct (readShell env) as [html|e]; [|repeat split].
  destruct (buildSyncCss env) as [css|e]; [|repeat split].
  destruct (logOutputs_fields (css ++ outputFiles r)%list w)
    as (_ & H2 & _ & H4 & H5 & _).
  rewrite injectPackageJsonData_agrees.
  destruct (injectPackageVariables G _) as [document|e].
  - unfold writeHtmlOutput.
    destruct (outputDirExists _); [repeat split; assumption|].
    destruct (mkdirSync env); repeat split; assumption.
  - repeat split; assumption.
Qed.

Lemma onEnd_keeps G env result w :
  outputFile (onEnd G env result w) = outputFile w
  /\ listening (onEnd G env result w) = listening w.
Proof.
  unfold onEnd. destruct result as [r|]; [|split; reflexivity].
  destruct (errors r); [|split; reflexivity].
  destruct (handleBuildResult_keeps G env r w) as (_ & H2 & H3).
  destruct (handleBuildResult G env r w) as [w' [u|e]]; cbn [fst] in *;
    split; assumption.
Qed.

Lemma step_keeps_output_file G w ev :
  writesFile ev = false ->
  outputFile (fst (step G w ev)) = outputFile w.
Proof.
  intros Hev. unfold step. destruct (exitStatus w); [reflexivity|].
  destruct ev as [env result|written|err|req]; cbn [fst].
  - apply onEnd_keeps.
  - discriminate.
  - destruct err as [e|]; [|discriminate].
    unfold writeCompleted. destruct (pendingWrites w); reflexivity.
  - destruct (listening w); [|reflexivity].
    destruct (requestListener w req); reflexivity.
Qed.

Lemma run_keeps_output_file G evs : forall w,
  forallb (fun ev => negb (writesFile ev)) evs = true ->
  outputFile (fst (run G w evs)) = outputFile w.
Proof.
  induction evs as [|ev rest IH]; intros w Hevs; [reflexivity|].
  cbn [forallb] in Hevs. apply andb_true_iff in Hevs. destruct Hevs as [Hev Hrest].
  apply negb_true_iff in Hev.
  cbn [run].
  pose proof (step_keeps_output_file G w ev Hev) as Hstep.
  destruct (step G w ev) as [w1 res]. cbn [fst] in Hstep.
  specialize (IH w1 Hrest). destruct (run G w1 rest) as [w2 more]. cbn [fst] in *.
  congruence.
Qed.

(** X13.  The output file changes only through a write in progress or
    completed: whatever build results, requests and writes that fail
    before the file is opened the process goes through, the file is
    afterwards as it was before.  The write itself empties the file when
    it opens it, and a write that fails after that leaves in the file the
    part that was written. *)
Theorem output_file_changes_only_through_a_write
        (G : Globals) (w : World) :
  (forall evs,
      forallb (fun ev => negb (writesFile ev)) evs = true ->
      outputFile (fst (run G w evs)) = outputFile w)
  /\ (forall html rest,
        exitStatus w = None -> pendingWrites w = html :: rest ->
        outputFile (fst (step G w (WriteProgress 0))) = Some EmptyString
        /\ forall written e,
            outputFile (fst (run G w [WriteProgress written; WriteDone (Some e)]))
            = Some (substring 0 written html)).
Proof.
  split; [intros evs; apply run_keeps_output_file|].
  intros html rest Hrun Hpending.
  assert (Hstep : forall written,
             step G w (WriteProgress written)
             = ({| outputDirExists := outputDirExists w;
                   outputFile := Some (substring 0 written html);
                   pendingWrites := pendingWrites w;
                   console := console w;
                   exitStatus := exitStatus w;
                   listening := listening w |}, None)).
  { intros written. unfold step, writeProgress. rewrite Hrun, Hpending. reflexivity. }
  split.
  - rewrite Hstep. cbn [fst outputFile]. destruct html; reflexivity.
  - intros written e. cbn [run]. rewrite Hstep.
    unfold step. cbn [exitStatus]. rewrite Hrun.
    unfold writeCompleted. cbn [pendingWrites]. rewrite Hpending. reflexivity.
Qed.

Lemma output_file_changes_only_through_a_write_witness :
  (forallb (fun ev => negb (writesFile ev))
     [ BuildEnd sampleEnv (Some sampleResult);
       Incoming {| method := "GET"; url := "/" |};
       BuildEnd sampleEnv (Some {| errors := ["syntax error"]; outputFiles := [] |}) ]
   = true
   /\ exitStatus (fst (step sampleGlobals builtWorld (BuildEnd sampleEnv (Some sampleResult))))
      = None
   /\ pendingWrites
        (fst (step sampleGlobals builtWorld (BuildEnd sampleEnv (Some sampleResult))))
      = [sampleDocument])
  /\ outputFile
       (fst (run sampleGlobals builtWorld
               [ BuildEnd sampleEnv (Some sampleResult);
                 Incoming {| method := "GET"; url := "/" |};
                 BuildEnd sampleEnv
                   (Some {| errors := ["syntax error"]; outputFiles := [] |}) ]))
     = outputFile builtWorld
  /\ outputFile
       (fst (step sampleGlobals
               (fst (step sampleGlobals builtWorld (BuildEnd sampleEnv (Some sampleResult))))
               (WriteProgress 0)))
     = Some "".
Proof.
  assert (H1 : exitStatus
                 (fst (step sampleGlobals builtWorld (BuildEnd sampleEnv (Some sampleResult))))
               = None) by (vm_compute; reflexivity).
  assert (H2 : pendingWrites
                 (fst (step sampleGlobals builtWorld (BuildEnd sampleEnv (Some sampleResult))))
               = [sampleDocument]) by (vm_compute; reflexivity).
  split; [split; [reflexivity | split; assumption]|].
  split.
  - exact (proj1 (output_file_changes_only_through_a_write sampleGlobals builtWorld)
             [ BuildEnd sampleEnv (Some sampleResult);
               Incoming {| method := "GET"; url := "/" |};
               BuildEnd sampleEnv
                 (Some {| errors := ["syntax error"]; outputFiles := [] |}) ]
             eq_refl).
  - exact (proj1 (proj2 (output_file_changes_only_through_a_write sampleGlobals
                           (fst (step sampleGlobals builtWorld
                                   (BuildEnd sampleEnv (Some sampleResult)))))
                    sampleDocument [] H1 H2)).
Defined.

(** ** From the first build to the first answer *)

(** X14.  After a first build without errors, for locale keys free of
    regular-expression syntax and a shell whose transform returns, once
    the write the build started has completed, a request of any method
    but HEAD is answered with status 200 and the document of that build:
    the shell with the outputs spliced in, taken through the locale pass
    and the metadata pass.  A HEAD request gets the same answer without
    the document. *)
Theorem first_build_is_served_once_written
        (G : Globals) (env : Env) (result : BuildResult) (w : World)
        (html document : string) (css : list OutputFile) (req : Request) :
  exitStatus w = None ->
  pendingWrites w = [] ->
  errors result = [] ->
  readShell env = Normal html ->
  buildSyncCss env = Normal css ->
  mkdirSync env = Normal tt ->
  literalKeys G = true ->
  transformContent G (assemble html (css ++ outputFiles result)%list) = Normal document ->
  map (sent req)
    (snd (run G (start G (Normal tt) env result w) [WriteDone None; Incoming req]))
  = [ {| statusCode := 200;
         headers := [("Content-Type", "text/html")];
         body := if String.eqb (method req) "HEAD" then EmptyString else document |} ].
Proof.
  intros Hrun Hpending Herr Hshell Hcss Hmk _ Hdoc.
  rewrite (start_leaves_write_pending G env result w html css document
             Hrun Herr Hshell Hcss Hmk Hdoc).
  rewrite Hpending. cbn. unfold sent. cbn.
  destruct (String.eqb (method req) "HEAD"); reflexivity.
Qed.

Lemma first_build_is_served_once_written_witness :
  (exitStatus freshWorld = None
   /\ pendingWrites freshWorld = []
   /\ errors sampleResult = []
   /\ readShell sampleEnv = Normal sampleShell
   /\ buildSyncCss sampleEnv
      = Normal [ {| path := "build/index.css"; contents := "body{margin:0}" |} ]
   /\ mkdirSync sampleEnv = Normal tt
   /\ literalKeys sampleGlobals = true
   /\ transformContent sampleGlobals
        (assemble sampleShell
           ([ {| path := "build/index.css"; contents := "body{margin:0}" |} ]
            ++ outputFiles sampleResult)%list)
      = Normal sampleDocument)
  /\ map (sent {| method := "POST"; url := "/any/path" |})
       (snd (run sampleGlobals
               (start sampleGlobals (Normal tt) sampleEnv sampleResult freshWorld)
               [WriteDone None; Incoming {| method := "POST"; url := "/any/path" |}]))
     = [ {| statusCode := 200;
            headers := [("Content-Type", "text/html")];
            body := sampleDocument |} ].
Proof.
  assert (H : transformContent sampleGlobals
                (assemble sampleShell
                   ([ {| path := "build/index.css"; contents := "body{margin:0}" |} ]
                    ++ outputFiles sampleResult)%list)
              = Normal sampleDocument) by (vm_compute; reflexivity).
  split; [repeat (split; [reflexivity|]); exact H|].
  exact (first_build_is_served_once_written sampleGlobals sampleEnv sampleResult freshWorld
           sampleShell sampleDocument
           [ {| path := "build/index.css"; contents := "body{margin:0}" |} ]
           {| method := "POST"; url := "/any/path" |}
           eq_refl eq_refl eq_refl eq_refl eq_refl eq_refl eq_refl H).
Defined.

(** ** The passes applied twice *)

Lemma passes_twice_piece G pc :
  injectPiece G (localizePiece G (injectPiece G (localizePiece G pc)))
  = injectPiece G (localizePiece G pc).
Proof.
  destruct pc as [|withSpace key|p|text]; cbn [localizePiece injectPiece]; try reflexivity.
  destruct (Locale.lookup key (Locale.spread (english G) (activeLocale G))) as [v|] eqn:E;
    cbn [localizePiece injectPiece]; [reflexivity|].
  rewrite E. reflexivity.
Qed.

Lemma injectPiece_items G items :
  itemsOk items = true -> valuesOk G items = true ->
  itemsOk (mapPieces (injectPiece G) items) = true
  /\ valuesOk G (mapPieces (injectPiece G) items) = true.
Proof.
  induction items as [|[pre pc] rest IH]; intros Hok Hval; [split; reflexivity|].
  destruct (itemsOk_cons pre pc rest Hok) as (Hpre & Hpc & Hrest).
  unfold valuesOk in Hval. cbn [forallb snd] in Hval.
  apply andb_true_iff in Hval. destruct Hval as [Hv Hvals].
  destruct (IH Hrest Hvals) as [IH1 IH2].
  unfold itemsOk, valuesOk, mapPieces in *. cbn [map forallb fst snd].
  rewrite Hpre, IH1, IH2, !andb_true_r.
  destruct pc as [|withSpace key|p|text]; cbn [injectPiece pieceOk valueOk] in *;
    try (split; [exact Hpc | reflexivity]).
  apply andb_true_iff in Hv. destruct Hv as [_ Hf].
  split; [exact Hf | reflexivity].
Qed.

(** X15.  Take locale data that can be taken literally (every key free of
    regular-expression syntax and of a leading space, the locale name and
    every translation without opening brace and without replacement
    pattern), a text made of stretches without opening braces and of
    markers, and metadata that can be inserted as it is (the path of every
    package marker resolves, without raising, to a value that is not a
    function and that converts to a text without opening brace and
    without replacement pattern).  Such a text, once transformed, is left
    as it is by a second transform. *)
Theorem transform_twice_is_transform_once
        (G : Globals) (items : list (string * piece)) (last transformed : string) :
  localeOk G = true ->
  itemsOk items = true ->
  valuesOk G items = true ->
  braceFree last = true ->
  transformContent G (render items last) = Normal transformed ->
  transformContent G transformed = Normal transformed.
Proof.
  intros HG Hok Hval Hlast Hfirst.
  rewrite (transform_render G items last HG Hok Hval Hlast) in Hfirst.
  injection Hfirst as Hfirst. subst transformed.
  rewrite <- (mapPieces_compose (localizePiece G) (injectPiece G) items).
  destruct (localizePiece_items G items HG Hok Hval) as [Hok1 Hval1].
  destruct (injectPiece_items G _ Hok1 Hval1) as [Hok2 Hval2].
  rewrite (transform_render G _ last HG Hok2 Hval2 Hlast).
  f_equal. f_equal. rewrite !mapPieces_compose.
  apply mapPieces_ext. intros pc. apply passes_twice_piece.
Qed.

Lemma transform_twice_is_transform_once_witness :
  (localeOk plainGlobals = true
   /\ itemsOk samplePage = true
   /\ valuesOk plainGlobals samplePage = true
   /\ braceFree "</p>" = true
   /\ transformContent plainGlobals (render samplePage "</p>")
      = Normal "<html lang=fr-FR><title>Le Wiki 1.8.0</title><p>Goodbye {{translate:unknown}} git</p>")
  /\ transformContent plainGlobals
       "<html lang=fr-FR><title>Le Wiki 1.8.0</title><p>Goodbye {{translate:unknown}} git</p>"
     = Normal "<html lang=fr-FR><title>Le Wiki 1.8.0</title><p>Goodbye {{translate:unknown}} git</p>".
Proof.
  assert (H0 : localeOk plainGlobals = true) by (vm_compute; reflexivity).
  assert (H1 : itemsOk samplePage = true) by (vm_compute; reflexivity).
  assert (H2 : valuesOk plainGlobals samplePage = true) by (vm_compute; reflexivity).
  assert (H3 : braceFree "</p>" = true) by (vm_compute; reflexivity).
  assert (H4 : transformContent plainGlobals (render samplePage "</p>")
               = Normal "<html lang=fr-FR><title>Le Wiki 1.8.0</title><p>Goodbye {{translate:unknown}} git</p>")
    by (vm_compute; reflexivity).
  split; [repeat split; assumption|].
  exact (transform_twice_is_transform_once plainGlobals samplePage "</p>" _ H0 H1 H2 H3 H4).
Defined.
